(** * IdealGasReactor: a zero-dimensional ideal-gas reactor

    Shallow embedding of [src/zeroD/IdealGasReactor.cpp] and the properties
    its specification states about it.

    Conventions of the embedding.
    - A [double] is a real number: the arithmetic of the source is read as
      exact arithmetic, so rounding, infinities and NaN are outside the model.
    - A [size_t] is a natural number below [2^64]; additions on [size_t]
      wrap, [npos] is the largest value.
    - A [double*] argument is the memory it points to, a map from offsets to
      values; [p + k] is the same memory read [k] cells further.
    - A C++ exception ends the call with [Err]; what was written to the
      reactor and to the output array before the throw stays written.
    - The collaborators of the reactor (property evaluator, kinetics, flow
      devices, walls) are records of their queries.
    - A scratch vector that a collaborator fills through [&v[0]] or
      [v.data()] becomes the list the collaborator reports; the source
      overwrites the first cells of the vector in place and keeps its
      length, which is the same when the vector has one entry per species,
      as it is sized at initialization. *)

From Stdlib Require Import Reals Lra List String NArith Bool Lia.
Import ListNotations.

Open Scope R_scope.

(* ================================================================= *)
(** ** Errors and the state-and-error monad *)

Inductive error : Type :=
| CanteraError (procedure message : string)
| NullPointer (member : string).

Inductive result (A : Type) : Type :=
| Ok (a : A)
| Err (e : error).
Arguments Ok {A} a.
Arguments Err {A} e.

Definition is_ok {A} (x : result A) : bool :=
  match x with Ok _ => true | Err _ => false end.

(** A computation over a mutable state [S] that may throw.  The state is
    returned on both outcomes: a throw does not undo earlier writes. *)
Definition M (S A : Type) : Type := S -> S * result A.

Definition ret {S A} (a : A) : M S A := fun s => (s, Ok a).

Definition throw {S A} (e : error) : M S A := fun s => (s, Err e).

Definition bind {S A B} (m : M S A) (k : A -> M S B) : M S B :=
  fun s => match m s with
           | (s', Ok a) => k a s'
           | (s', Err e) => (s', Err e)
           end.

Definition gets {S A} (f : S -> A) : M S A := fun s => (s, Ok (f s)).

Definition modify {S} (f : S -> S) : M S unit := fun s => (f s, Ok tt).

Definition lift {S A} (x : result A) : M S A := fun s => (s, x).

Declare Scope monad_scope.
Delimit Scope monad_scope with monad.
Notation "x <- m ;; k" := (bind m (fun x => k))
  (at level 61, m at next level, right associativity) : monad_scope.
Notation "m ;;; k" := (bind m (fun _ => k))
  (at level 61, right associativity) : monad_scope.

(** A [for] loop over the elements of [l], in order, threading the local
    variables [acc] of the loop. *)
Fixpoint forM {S A X} (l : list X) (acc : A) (body : A -> X -> M S A) : M S A :=
  match l with
  | [] => ret acc
  | x :: l' => bind (body acc x) (fun acc' => forM l' acc' body)
  end.

(* ================================================================= *)
(** ** Machine integers, vectors and arrays *)

Definition size_max : N := 2 ^ 64.

(** [size_t(-1)] *)
Definition npos : N := size_max - 1.

(** Addition on [size_t]. *)
Definition size_add (a b : N) : N := ((a + b) mod size_max)%N.

(** The indices [0, 1, ..., n-1] of a [for (size_t i = 0; i < n; i++)]. *)
Definition iota (n : N) : list N := map N.of_nat (seq 0 (N.to_nat n)).

(** [v[i]] on a [vector<double>].  The source never checks the index; reading
    past the end is undefined in C++ and reads [0] here. *)
Definition vget (v : list R) (i : N) : R := nth (N.to_nat i) v 0.

(** Memory behind a [double*]. *)
Definition buffer : Type := N -> R.

Definition store (b : buffer) (i : N) (v : R) : buffer :=
  fun j => if N.eqb j i then v else b j.

(** [copy(v.begin(), v.end(), p + off)] *)
Fixpoint store_list (b : buffer) (off : N) (v : list R) : buffer :=
  match v with
  | [] => b
  | x :: v' => store_list (store b off x) (off + 1) v'
  end.

(** The [n] cells from [p + off] on. *)
Definition load_list (b : buffer) (off : N) (n : N) : list R :=
  map (fun k => b (off + k)%N) (iota n).

(* ================================================================= *)
(** ** Collaborators *)

(** The sensitivity parameters handed to [evalEqs]: a null pointer or an
    array of values. *)
Definition params_t : Type := option (list R).

(** Modelled from the spec: the state of the property evaluator is not part
    of the sources.  It holds what the evaluator "reports" and "accepts":
    temperature, density and the (unnormalized) mass fractions; the reactor's
    "saved low-level thermodynamic state snapshot" is a copy of it. *)
Record ThermoState : Type := mkThermoState {
  ts_T : R;
  ts_rho : R;
  ts_Y : list R
}.

Module ThermoPhase.

(** Modelled from the spec: the class [ThermoPhase] is not part of the
    sources.  The property evaluator "reports density, temperature, mass
    fractions, enthalpy/mass, pressure, internal-energy/mass, molecular
    weights, heat capacity (dimensionless) and its temperature derivative,
    specific heat at constant volume, partial molar internal energies;
    accepts combined temperature+density state updates and unnormalized
    mass-fraction updates; reports a type tag"; it can "restore/save an
    opaque state snapshot".  The computed properties depend on the state
    held and on the sensitivity perturbation in force, and may throw. *)
Record t : Type := mk {
  type : string;
  speciesNames : list string;
  molecularWeights : list R;
  state : ThermoState;
  enthalpy_mass_f : params_t -> ThermoState -> result R;
  pressure_f : params_t -> ThermoState -> result R;
  intEnergy_mass_f : params_t -> ThermoState -> result R;
  cv_mass_f : params_t -> ThermoState -> result R;
  partialMolarIntEnergies_f : params_t -> ThermoState -> result (list R);
  cp_R_f : params_t -> ThermoState -> result (list R);
  dCp_RdT_f : params_t -> ThermoState -> result (list R)
}.

Definition with_state (s : ThermoState) (th : t) : t :=
  {| type := type th;
     speciesNames := speciesNames th;
     molecularWeights := molecularWeights th;
     state := s;
     enthalpy_mass_f := enthalpy_mass_f th;
     pressure_f := pressure_f th;
     intEnergy_mass_f := intEnergy_mass_f th;
     cv_mass_f := cv_mass_f th;
     partialMolarIntEnergies_f := partialMolarIntEnergies_f th;
     cp_R_f := cp_R_f th;
     dCp_RdT_f := dCp_RdT_f th |}.

Definition temperature (th : t) : R := ts_T (state th).
Definition density (th : t) : R := ts_rho (state th).
Definition massFractions (th : t) : list R := ts_Y (state th).
Definition nSpecies (th : t) : N := N.of_nat (List.length (massFractions th)).

(** The queries and updates of the record above, under the names the
    source calls them by.  [getMassFractions(y)] copies the mass fractions
    to [y]. *)
Definition getMassFractions (th : t) (y : buffer) (off : N) : buffer :=
  store_list y off (massFractions th).

(** [setMassFractions_NoNorm(y)] takes one value per species from [y],
    without renormalizing. *)
Definition setMassFractions_NoNorm (y : buffer) (off : N) (th : t) : t :=
  with_state (mkThermoState (temperature th) (density th)
                            (load_list y off (nSpecies th))) th.

(** [setState_TR(T, rho)] sets temperature and density together. *)
Definition setState_TR (T rho : R) (th : t) : t :=
  with_state (mkThermoState T rho (massFractions th)) th.

Definition saveState (th : t) : ThermoState := state th.
Definition restoreState (s : ThermoState) (th : t) : t := with_state s th.

Definition enthalpy_mass (p : params_t) (th : t) := enthalpy_mass_f th p (state th).
Definition pressure (p : params_t) (th : t) := pressure_f th p (state th).
Definition intEnergy_mass (p : params_t) (th : t) := intEnergy_mass_f th p (state th).
Definition cv_mass (p : params_t) (th : t) := cv_mass_f th p (state th).
Definition getPartialMolarIntEnergies (p : params_t) (th : t) :=
  partialMolarIntEnergies_f th p (state th).
Definition getCp_R (p : params_t) (th : t) := cp_R_f th p (state th).
Definition getdCp_RdT (p : params_t) (th : t) := dCp_RdT_f th p (state th).

End ThermoPhase.

Module Kinetics.

(** Modelled from the spec: the class [Kinetics] is not part of the
    sources.  The kinetics evaluator reports "net production rates per
    species" and the "temperature derivative of net production rates", for
    the state the property evaluator holds and the perturbation in force. *)
Record t : Type := mk {
  getNetProductionRates : params_t -> ThermoState -> result (list R);
  getNetProductionRateTDerivatives : params_t -> ThermoState -> result (list R)
}.

End Kinetics.

Module FlowDevice.

(** Modelled from the spec: the class [FlowDevice] is not part of the
    sources.  A flow device reports its "instantaneous mass flow rate at a
    given time; mixture enthalpy/mass; per-species outlet mass flow
    rate". *)
Record t : Type := mk {
  massFlowRate : R -> result R;
  enthalpy_mass : result R;
  outletSpeciesMassFlowRate : N -> result R
}.

End FlowDevice.

Module Wall.

(** Modelled from the spec: what the "surface evaluation" of a wall
    produces at one time, "per-surface-species production rates and a net
    gas-phase mass flux". *)
Record surface_rates : Type := mkRates {
  sr_surface : list R;
  sr_mass_flux : R
}.

(** Modelled from the spec: the class [Wall] is not part of the sources.
    A wall offers a "per-time evaluation producing heat/volume exchange
    effects; surface evaluation producing per-surface-species production
    rates and a net gas-phase mass flux; initial coverage retrieval;
    coverage-state update from a sub-vector".  [nSurfaceSpecies] is the
    wall's own surface-species count, [0] for a wall without surface
    chemistry. *)
Record t : Type := mk {
  nSurfaceSpecies : N;
  surfaceSpeciesNames : list string;
  initialCoverages : list R;
  coverages : list R;
  vdot : R -> result R;
  Q : R -> result R;
  evalSurface : R -> result surface_rates
}.

Definition setCoverages (c : list R) (w : t) : t :=
  {| nSurfaceSpecies := nSurfaceSpecies w;
     surfaceSpeciesNames := surfaceSpeciesNames w;
     initialCoverages := initialCoverages w;
     coverages := c;
     vdot := vdot w;
     Q := Q w;
     evalSurface := evalSurface w |}.

End Wall.

(* ================================================================= *)
(** ** The reactor *)

(** The members of [IdealGasReactor] (most of them inherited from
    [Reactor]) that the source file reads or writes.  [perturbation] is the
    sensitivity perturbation in force on the parameters of the property and
    kinetics evaluators: [None] when they are unperturbed. *)
Record Reactor : Type := mkReactor {
  m_thermo : option ThermoPhase.t;
  m_kin : option Kinetics.t;
  m_state : ThermoState;
  m_nsp : N;
  m_mass : R;
  m_vol : R;
  m_enthalpy : R;
  m_pressure : R;
  m_intEnergy : R;
  m_vdot : R;
  m_Q : R;
  m_chem : bool;
  m_energy : bool;
  m_wdot : list R;
  m_sdot : list R;
  m_uk : list R;
  m_work : list R;
  m_inlet : list FlowDevice.t;
  m_outlet : list FlowDevice.t;
  m_wall : list Wall.t;
  perturbation : params_t
}.

Definition set_m_thermo (v : option ThermoPhase.t) (r : Reactor) : Reactor :=
  mkReactor v (m_kin r) (m_state r) (m_nsp r) (m_mass r) (m_vol r)
    (m_enthalpy r) (m_pressure r) (m_intEnergy r) (m_vdot r) (m_Q r)
    (m_chem r) (m_energy r) (m_wdot r) (m_sdot r) (m_uk r) (m_work r)
    (m_inlet r) (m_outlet r) (m_wall r) (perturbation r).

Definition set_m_kin (v : option Kinetics.t) (r : Reactor) : Reactor :=
  mkReactor (m_thermo r) v (m_state r) (m_nsp r) (m_mass r) (m_vol r)
    (m_enthalpy r) (m_pressure r) (m_intEnergy r) (m_vdot r) (m_Q r)
    (m_chem r) (m_energy r) (m_wdot r) (m_sdot r) (m_uk r) (m_work r)
    (m_inlet r) (m_outlet r) (m_wall r) (perturbation r).

Definition set_m_state (v : ThermoState) (r : Reactor) : Reactor :=
  mkReactor (m_thermo r) (m_kin r) v (m_nsp r) (m_mass r) (m_vol r)
    (m_enthalpy r) (m_pressure r) (m_intEnergy r) (m_vdot r) (m_Q r)
    (m_chem r) (m_energy r) (m_wdot r) (m_sdot r) (m_uk r) (m_work r)
    (m_inlet r) (m_outlet r) (m_wall r) (perturbation r).

Definition set_m_mass (v : R) (r : Reactor) : Reactor :=
  mkReactor (m_thermo r) (m_kin r) (m_state r) (m_nsp r) v (m_vol r)
    (m_enthalpy r) (m_pressure r) (m_intEnergy r) (m_vdot r) (m_Q r)
    (m_chem r) (m_energy r) (m_wdot r) (m_sdot r) (m_uk r) (m_work r)
    (m_inlet r) (m_outlet r) (m_wall r) (perturbation r).

Definition set_m_vol (v : R) (r : Reactor) : Reactor :=
  mkReactor (m_thermo r) (m_kin r) (m_state r) (m_nsp r) (m_mass r) v
    (m_enthalpy r) (m_pressure r) (m_intEnergy r) (m_vdot r) (m_Q r)
    (m_chem r) (m_energy r) (m_wdot r) (m_sdot r) (m_uk r) (m_work r)
    (m_inlet r) (m_outlet r) (m_wall r) (perturbation r).

Definition set_m_enthalpy (v : R) (r : Reactor) : Reactor :=
  mkReactor (m_thermo r) (m_kin r) (m_state r) (m_nsp r) (m_mass r) (m_vol r)
    v (m_pressure r) (m_intEnergy r) (m_vdot r) (m_Q r)
    (m_chem r) (m_energy r) (m_wdot r) (m_sdot r) (m_uk r) (m_work r)
    (m_inlet r) (m_outlet r) (m_wall r) (perturbation r).

Definition set_m_pressure (v : R) (r : Reactor) : Reactor :=
  mkReactor (m_thermo r) (m_kin r) (m_state r) (m_nsp r) (m_mass r) (m_vol r)
    (m_enthalpy r) v (m_intEnergy r) (m_vdot r) (m_Q r)
    (m_chem r) (m_energy r) (m_wdot r) (m_sdot r) (m_uk r) (m_work r)
    (m_inlet r) (m_outlet r) (m_wall r) (perturbation r).

Definition set_m_intEnergy (v : R) (r : Reactor) : Reactor :=
  mkReactor (m_thermo r) (m_kin r) (m_state r) (m_nsp r) (m_mass r) (m_vol r)
    (m_enthalpy r) (m_pressure r) v (m_vdot r) (m_Q r)
    (m_chem r) (m_energy r) (m_wdot r) (m_sdot r) (m_uk r) (m_work r)
    (m_inlet r) (m_outlet r) (m_wall r) (perturbation r).

Definition set_m_vdot (v : R) (r : Reactor) : Reactor :=
  mkReactor (m_thermo r) (m_kin r) (m_state r) (m_nsp r) (m_mass r) (m_vol r)
    (m_enthalpy r) (m_pressure r) (m_intEnergy r) v (m_Q r)
    (m_chem r) (m_energy r) (m_wdot r) (m_sdot r) (m_uk r) (m_work r)
    (m_inlet r) (m_outlet r) (m_wall r) (perturbation r).

Definition set_m_Q (v : R) (r : Reactor) : Reactor :=
  mkReactor (m_thermo r) (m_kin r) (m_state r) (m_nsp r) (m_mass r) (m_vol r)
    (m_enthalpy r) (m_pressure r) (m_intEnergy r) (m_vdot r) v
    (m_chem r) (m_energy r) (m_wdot r) (m_sdot r) (m_uk r) (m_work r)
    (m_inlet r) (m_outlet r) (m_wall r) (perturbation r).

Definition set_m_chem (v : bool) (r : Reactor) : Reactor :=
  mkReactor (m_thermo r) (m_kin r) (m_state r) (m_nsp r) (m_mass r) (m_vol r)
    (m_enthalpy r) (m_pressure r) (m_intEnergy r) (m_vdot r) (m_Q r)
    v (m_energy r) (m_wdot r) (m_sdot r) (m_uk r) (m_work r)
    (m_inlet r) (m_outlet r) (m_wall r) (perturbation r).

Definition set_m_wdot (v : list R) (r : Reactor) : Reactor :=
  mkReactor (m_thermo r) (m_kin r) (m_state r) (m_nsp r) (m_mass r) (m_vol r)
    (m_enthalpy r) (m_pressure r) (m_intEnergy r) (m_vdot r) (m_Q r)
    (m_chem r) (m_energy r) v (m_sdot r) (m_uk r) (m_work r)
    (m_inlet r) (m_outlet r) (m_wall r) (perturbation r).

Definition set_m_sdot (v : list R) (r : Reactor) : Reactor :=
  mkReactor (m_thermo r) (m_kin r) (m_state r) (m_nsp r) (m_mass r) (m_vol r)
    (m_enthalpy r) (m_pressure r) (m_intEnergy r) (m_vdot r) (m_Q r)
    (m_chem r) (m_energy r) (m_wdot r) v (m_uk r) (m_work r)
    (m_inlet r) (m_outlet r) (m_wall r) (perturbation r).

Definition set_m_uk (v : list R) (r : Reactor) : Reactor :=
  mkReactor (m_thermo r) (m_kin r) (m_state r) (m_nsp r) (m_mass r) (m_vol r)
    (m_enthalpy r) (m_pressure r) (m_intEnergy r) (m_vdot r) (m_Q r)
    (m_chem r) (m_energy r) (m_wdot r) (m_sdot r) v (m_work r)
    (m_inlet r) (m_outlet r) (m_wall r) (perturbation r).

Definition set_m_work (v : list R) (r : Reactor) : Reactor :=
  mkReactor (m_thermo r) (m_kin r) (m_state r) (m_nsp r) (m_mass r) (m_vol r)
    (m_enthalpy r) (m_pressure r) (m_intEnergy r) (m_vdot r) (m_Q r)
    (m_chem r) (m_energy r) (m_wdot r) (m_sdot r) (m_uk r) v
    (m_inlet r) (m_outlet r) (m_wall r) (perturbation r).

Definition set_m_wall (v : list Wall.t) (r : Reactor) : Reactor :=
  mkReactor (m_thermo r) (m_kin r) (m_state r) (m_nsp r) (m_mass r) (m_vol r)
    (m_enthalpy r) (m_pressure r) (m_intEnergy r) (m_vdot r) (m_Q r)
    (m_chem r) (m_energy r) (m_wdot r) (m_sdot r) (m_uk r) (m_work r)
    (m_inlet r) (m_outlet r) v (perturbation r).

Definition set_perturbation (v : params_t) (r : Reactor) : Reactor :=
  mkReactor (m_thermo r) (m_kin r) (m_state r) (m_nsp r) (m_mass r) (m_vol r)
    (m_enthalpy r) (m_pressure r) (m_intEnergy r) (m_vdot r) (m_Q r)
    (m_chem r) (m_energy r) (m_wdot r) (m_sdot r) (m_uk r) (m_work r)
    (m_inlet r) (m_outlet r) (m_wall r) v.

(* ================================================================= *)
(** ** Attaching the property evaluator *)

(** Modelled from the spec: [Reactor::setThermoMgr] is not part of the
    sources.  It "attach[es] a property evaluator": the reactor's reference
    to its property evaluator is set to the one given. *)
Definition Reactor_setThermoMgr (thermo : ThermoPhase.t) (r : Reactor) : Reactor :=
  set_m_thermo (Some thermo) r.

(** [IdealGasReactor::setThermoMgr] *)
Definition setThermoMgr (thermo : ThermoPhase.t) : M Reactor unit :=
  fun r =>
    if negb (String.eqb (ThermoPhase.type thermo) "IdealGas") then
      throw (CanteraError "IdealGasReactor::setThermoMgr"
                          "Incompatible phase type provided") r
    else
      modify (Reactor_setThermoMgr thermo) r.

(* ================================================================= *)
(** ** The packed state vector: [getState] and [updateState] *)

(** The block of a wall in the state vector: one coverage per surface
    species of the wall. *)
Definition initial_block (w : Wall.t) : list R :=
  map (vget (Wall.initialCoverages w)) (iota (Wall.nSurfaceSpecies w)).

(** Modelled from the spec: [Reactor::getSurfaceInitialConditions] is not
    part of the sources.  It writes "each attached wall's initial surface
    coverages, each coverage block written in wall-registration order, each
    block's length determined by that wall's own surface-species count". *)
Fixpoint getSurfaceInitialConditions (walls : list Wall.t) (y : buffer) (loc : N)
  : buffer :=
  match walls with
  | [] => y
  | w :: ws =>
      getSurfaceInitialConditions ws (store_list y loc (initial_block w))
                                  (loc + Wall.nSurfaceSpecies w)
  end.

(** Modelled from the spec: [Reactor::updateSurfaceState] is not part of the
    sources.  It "dispatches the surface-coverage suffix to each wall's
    surface-state updater, in the same order used by [getState]". *)
Fixpoint updateSurfaceState (walls : list Wall.t) (y : buffer) (loc : N)
  : list Wall.t :=
  match walls with
  | [] => []
  | w :: ws =>
      Wall.setCoverages (load_list y loc (Wall.nSurfaceSpecies w)) w
        :: updateSurfaceState ws y (loc + Wall.nSurfaceSpecies w)
  end.

(** [IdealGasReactor::getState].  The array [y] is returned next to the
    reactor: both are written by the call. *)
Definition getState (y : buffer) (r : Reactor) : (Reactor * buffer) * result unit :=
  match m_thermo r with
  | None => ((r, y), Err (CanteraError "getState" "Error: reactor is empty."))
  | Some th0 =>
      let th := ThermoPhase.restoreState (m_state r) th0 in
      let r := set_m_thermo (Some th) r in
      (* set the first component to the total mass *)
      let r := set_m_mass (ThermoPhase.density th * m_vol r) r in
      let y := store y 0 (m_mass r) in
      (* set the second component to the total volume *)
      let y := store y 1 (m_vol r) in
      (* set the third component to the temperature *)
      let y := store y 2 (ThermoPhase.temperature th) in
      (* set components y+3 ... y+K+2 to the mass fractions of each species *)
      let y := ThermoPhase.getMassFractions th y 3 in
      (* set the remaining components to the surface species coverages *)
      let y := getSurfaceInitialConditions (m_wall r) y (m_nsp r + 3) in
      ((r, y), Ok tt)
  end.

(** Dereferencing a member pointer: a null pointer ends the call (the
    source does not test it; C++ leaves the behaviour undefined). *)
Definition deref {S A} (member : string) (p : option A) : M S A :=
  match p with
  | Some a => ret a
  | None => throw (NullPointer member)
  end.

(** [IdealGasReactor::updateState] *)
Definition updateState (y : buffer) : M Reactor unit :=
  (modify (set_m_mass (y 0%N)) ;;;
   modify (set_m_vol (y 1%N)) ;;;
   th <- (fun r => deref "m_thermo" (m_thermo r) r) ;;
   let th := ThermoPhase.setMassFractions_NoNorm y 3 th in
   mass <- gets m_mass ;;
   vol <- gets m_vol ;;
   let th := ThermoPhase.setState_TR (y 2%N) (mass / vol) th in
   modify (set_m_thermo (Some th)) ;;;
   nsp <- gets m_nsp ;;
   modify (fun r => set_m_wall (updateSurfaceState (m_wall r) y (nsp + 3)) r) ;;;
   (* save parameters needed by other connected reactors *)
   p <- gets perturbation ;;
   h <- lift (ThermoPhase.enthalpy_mass p th) ;;
   modify (set_m_enthalpy h) ;;;
   P <- lift (ThermoPhase.pressure p th) ;;
   modify (set_m_pressure P) ;;;
   u <- lift (ThermoPhase.intEnergy_mass p th) ;;
   modify (set_m_intEnergy u) ;;;
   modify (set_m_state (ThermoPhase.saveState th)))%monad.

(* ================================================================= *)
(** ** The right-hand side: [evalEqs] *)

(** What a call of [evalEqs] can write: the reactor and the array [ydot]. *)
Record Frame : Type := mkFrame {
  self : Reactor;
  ydot : buffer
}.

Definition on_self (f : Reactor -> Reactor) (s : Frame) : Frame :=
  mkFrame (f (self s)) (ydot s).

Definition on_ydot (f : buffer -> buffer) (s : Frame) : Frame :=
  mkFrame (self s) (f (ydot s)).

(** [m_thermo->] *)
Definition thermo : M Frame ThermoPhase.t :=
  fun s => deref "m_thermo" (m_thermo (self s)) s.

(** [m_kin->] *)
Definition kinetics : M Frame Kinetics.t :=
  fun s => deref "m_kin" (m_kin (self s)) s.

(** Modelled from the spec: [Reactor::applySensitivity] is not part of the
    sources.  It "appl[ies] any active sensitivity perturbation (a scoped
    modification that must be reverted before returning)": with parameters
    given, they become the perturbation in force; a null pointer perturbs
    nothing. *)
Definition applySensitivity (params : params_t) (r : Reactor) : Reactor :=
  match params with
  | None => r
  | Some v => set_perturbation (Some v) r
  end.

(** Modelled from the spec: [Reactor::resetSensitivity] is not part of the
    sources.  It "revert[s] the sensitivity perturbation applied" by
    [applySensitivity]: the parameters are unperturbed again. *)
Definition resetSensitivity (params : params_t) (r : Reactor) : Reactor :=
  match params with
  | None => r
  | Some _ => set_perturbation None r
  end.

(** Modelled from the spec: [Reactor::evalWalls] is not part of the sources.
    It "evaluate[s] walls (heat and volume-change contributions for this
    time)": the rate of volume change and the heat rate of the reactor are
    the sums of what its walls report. *)
Definition evalWalls (time : R) : M Frame unit :=
  (modify (on_self (set_m_vdot 0)) ;;;
   modify (on_self (set_m_Q 0)) ;;;
   walls <- gets (fun s => m_wall (self s)) ;;
   forM walls tt (fun _ w =>
     v <- lift (Wall.vdot w time) ;;
     modify (on_self (fun r => set_m_vdot (m_vdot r + v) r)) ;;;
     q <- lift (Wall.Q w time) ;;
     modify (on_self (fun r => set_m_Q (m_Q r + q) r))))%monad.

(** Modelled from the spec: [Reactor::evalSurfaces] is not part of the
    sources.  It evaluates "surfaces (heterogeneous production rates written
    into the surface-coverage derivative slots, returning the net mass flux
    crossing from the surface into the gas phase)": wall after wall, the
    rates of the wall's surface species fill the wall's block of [ydot] and
    its mass flux is added to the flux returned. *)
Definition evalSurfaces (time : R) (off : N) : M Frame R :=
  (walls <- gets (fun s => m_wall (self s)) ;;
   res <- forM walls (off, 0) (fun acc w =>
     let loc := fst acc in
     let mdot_surf := snd acc in
     sr <- lift (Wall.evalSurface w time) ;;
     modify (on_ydot (fun yd =>
       store_list yd loc
         (map (vget (Wall.sr_surface sr)) (iota (Wall.nSurfaceSpecies w))))) ;;;
     ret ((loc + Wall.nSurfaceSpecies w)%N, mdot_surf + Wall.sr_mass_flux sr)) ;;
   ret (snd res))%monad.

(** The body of [for (size_t n = 0; n < m_nsp; n++)], lines 101-109:
    heat release and production of gas species [n]. *)
Definition species_terms (mw Y : list R) (mdot_surf : R) (mcvdTdt : R) (n : N)
  : M Frame R :=
  (r <- gets self ;;
   (* heat release from gas phase and surface reactions *)
   let mcvdTdt := mcvdTdt - vget (m_wdot r) n * vget (m_uk r) n * m_vol r in
   let mcvdTdt := mcvdTdt - vget (m_sdot r) n * vget (m_uk r) n in
   (* production in gas phase and from surfaces *)
   modify (on_ydot (fun yd =>
     store yd (3 + n)
       ((vget (m_wdot r) n * m_vol r + vget (m_sdot r) n) * vget mw n / m_mass r))) ;;;
   (* dilution by net surface mass flux *)
   modify (on_ydot (fun yd =>
     store yd (3 + n) (yd (3 + n)%N - vget Y n * mdot_surf / m_mass r))) ;;;
   ret mcvdTdt)%monad.

(** The body of the loop over the outlets, lines 112-116. *)
Definition outlet_terms (time : R) (acc : R * R) (o : FlowDevice.t) : M Frame (R * R) :=
  (let dmdt := fst acc in
   let mcvdTdt := snd acc in
   r <- gets self ;;
   mdot_out <- lift (FlowDevice.massFlowRate o time) ;;
   (* mass flow out of system *)
   let dmdt := dmdt - mdot_out in
   (* flow work *)
   let mcvdTdt := mcvdTdt - mdot_out * m_pressure r * m_vol r / m_mass r in
   ret (dmdt, mcvdTdt))%monad.

(** The body of the inner loop over the species of an inlet, lines 123-131. *)
Definition inlet_species_terms (i : FlowDevice.t) (mw Y : list R) (mdot_in : R)
    (mcvdTdt : R) (n : N) : M Frame R :=
  (r <- gets self ;;
   mdot_spec <- lift (FlowDevice.outletSpeciesMassFlowRate i n) ;;
   (* flow of species into system and dilution by other species *)
   modify (on_ydot (fun yd =>
     store yd (3 + n) (yd (3 + n)%N + (mdot_spec - mdot_in * vget Y n) / m_mass r))) ;;;
   (* flow work plus thermal energy carried with the species *)
   ret (mcvdTdt - vget (m_uk r) n / vget mw n * mdot_spec))%monad.

(** The body of the loop over the inlets, lines 119-132. *)
Definition inlet_terms (time : R) (mw Y : list R) (acc : R * R) (i : FlowDevice.t)
  : M Frame (R * R) :=
  (let dmdt := fst acc in
   let mcvdTdt := snd acc in
   mdot_in <- lift (FlowDevice.massFlowRate i time) ;;
   (* mass flow into system *)
   let dmdt := dmdt + mdot_in in
   h_in <- lift (FlowDevice.enthalpy_mass i) ;;
   let mcvdTdt := mcvdTdt + h_in * mdot_in in
   nsp <- gets (fun s => m_nsp (self s)) ;;
   mcvdTdt <- forM (iota nsp) mcvdTdt (inlet_species_terms i mw Y mdot_in) ;;
   ret (dmdt, mcvdTdt))%monad.

(** Lines 94-142 of [evalEqs]: what follows the fetch of the production
    rates.  [th] is the property evaluator behind [m_thermo] (whose [mw] and
    [Y] the source holds by reference) and [p] the perturbation in force. *)
Definition evalEqs_balances (time : R) (params : params_t)
    (th : ThermoPhase.t) (p : params_t) : M Frame unit :=
  (let dmdt := 0 in
   let mcvdTdt := 0 in
   let mw := ThermoPhase.molecularWeights th in
   let Y := ThermoPhase.massFractions th in
   evalWalls time ;;;
   nsp <- gets (fun s => m_nsp (self s)) ;;
   mdot_surf <- evalSurfaces time (nsp + 3) ;;
   let dmdt := dmdt + mdot_surf in
   (* compression work and external heat transfer *)
   r <- gets self ;;
   let mcvdTdt := mcvdTdt + (- m_pressure r * m_vdot r - m_Q r) in
   mcvdTdt <- forM (iota nsp) mcvdTdt (species_terms mw Y mdot_surf) ;;
   (* add terms for outlets *)
   acc <- forM (m_outlet r) (dmdt, mcvdTdt) (outlet_terms time) ;;
   (* add terms for inlets *)
   acc <- forM (m_inlet r) acc (inlet_terms time mw Y) ;;
   let dmdt := fst acc in
   let mcvdTdt := snd acc in
   modify (on_ydot (fun yd => store yd 0 dmdt)) ;;;
   modify (on_ydot (fun yd => store yd 1 (m_vdot r))) ;;;
   (if m_energy r then
      cv <- lift (ThermoPhase.cv_mass p th) ;;
      modify (on_ydot (fun yd => store yd 2 (mcvdTdt / (m_mass r * cv))))
    else
      modify (on_ydot (fun yd => store yd 2 0))) ;;;
   modify (on_self (resetSensitivity params)))%monad.

(** [IdealGasReactor::evalEqs], lines 77-92 and then [evalEqs_balances].
    The argument [y] is there as in the source, which never reads it. *)
Definition evalEqs (time : R) (y : buffer) (params : params_t) : M Frame unit :=
  (th <- thermo ;;
   st <- gets (fun s => m_state (self s)) ;;
   let th := ThermoPhase.restoreState st th in
   modify (on_self (set_m_thermo (Some th))) ;;;
   modify (on_self (applySensitivity params)) ;;;
   p <- gets (fun s => perturbation (self s)) ;;
   uk <- lift (ThermoPhase.getPartialMolarIntEnergies p th) ;;
   modify (on_self (set_m_uk uk)) ;;;
   chem <- gets (fun s => m_chem (self s)) ;;
   (if chem then
      kin <- kinetics ;;
      wdot <- lift (Kinetics.getNetProductionRates kin p (ThermoPhase.state th)) ;;
      modify (on_self (set_m_wdot wdot))
    else ret tt) ;;;
   evalEqs_balances time params th p)%monad.

(* ================================================================= *)
(** ** The partial Jacobian: [evalJacEqs] *)

(** Modelled from the spec: the class [Array2D] is not part of the sources.
    The Jacobian is "a caller-supplied matrix abstraction": [J(i, j)] names
    the entry in row [i] and column [j]. *)
Definition matrix : Type := N -> N -> R.

Definition mset (J : matrix) (i j : N) (v : R) : matrix :=
  fun i' j' => if (N.eqb i' i && N.eqb j' j)%bool then v else J i' j'.

(** What a call of [evalJacEqs] can write: the reactor, the matrix behind
    [jac] and the standard output. *)
Record JFrame : Type := mkJFrame {
  jself : Reactor;
  jac : matrix;
  cout : list R
}.

Definition on_jself (f : Reactor -> Reactor) (s : JFrame) : JFrame :=
  mkJFrame (f (jself s)) (jac s) (cout s).

Definition on_jac (f : matrix -> matrix) (s : JFrame) : JFrame :=
  mkJFrame (jself s) (f (jac s)) (cout s).

Definition print (v : R) (s : JFrame) : JFrame :=
  mkJFrame (jself s) (jac s) (cout s ++ [v]).

Definition jthermo : M JFrame ThermoPhase.t :=
  fun s => deref "m_thermo" (m_thermo (jself s)) s.

Definition jkinetics : M JFrame Kinetics.t :=
  fun s => deref "m_kin" (m_kin (jself s)) s.

(** The loop of lines 158-160, "Compute dcvdT":
    [dcvRdT += dCvRdT[i] / mw[i] * y[start + i]]. *)
Definition dcvRdT_sum (dCvRdT mw : list R) (y : buffer) (start nsp : N) : R :=
  fold_left (fun dcvRdT i => dcvRdT + vget dCvRdT i / vget mw i * y (size_add start i))
            (iota nsp) 0.

Section Jacobian.

(** The universal gas constant of [ct_defs.h], which is not part of the
    sources. *)
Variable GasConstant : R.

(** The body of the loop of lines 173-179. *)
Definition df1dT_terms (dcvRdT RT : R) (df1dT : R) (i : N) : M JFrame R :=
  (r <- gets jself ;;
   let CvR := vget (m_work r) i - 1 in
   th <- jthermo ;;
   cv <- lift (ThermoPhase.cv_mass (perturbation r) th) ;;
   let CvR := CvR - vget (m_uk r) i * dcvRdT / cv in
   let CvR := CvR - vget (m_uk r) i / RT in
   let CvR := CvR * (vget (m_wdot r) i * m_vol r + vget (m_sdot r) i) in
   ret (df1dT + CvR))%monad.

(** [IdealGasReactor::evalJacEqs] *)
Definition evalJacEqs (time : R) (y : buffer) (start : N) : M JFrame unit :=
  (nsp <- gets (fun s => m_nsp (jself s)) ;;
   p <- gets (fun s => perturbation (jself s)) ;;
   th <- jthermo ;;
   let RT := GasConstant * ThermoPhase.temperature th in
   dCvRdT <- lift (ThermoPhase.getdCp_RdT p th) ;;
   let mw := ThermoPhase.molecularWeights th in
   let dcvRdT := dcvRdT_sum dCvRdT mw y start nsp in
   cv <- lift (ThermoPhase.cv_mass p th) ;;
   mass <- gets (fun s => m_mass (jself s)) ;;
   let inv_mcv := 1 / (mass * cv) in
   work <- lift (ThermoPhase.getCp_R p th) ;;
   modify (on_jself (set_m_work work)) ;;;
   uk <- lift (ThermoPhase.getPartialMolarIntEnergies p th) ;;
   modify (on_jself (set_m_uk uk)) ;;;
   kin <- jkinetics ;;
   wdot <- lift (Kinetics.getNetProductionRates kin p (ThermoPhase.state th)) ;;
   modify (on_jself (set_m_wdot wdot)) ;;;
   dwdotdT <- lift (Kinetics.getNetProductionRateTDerivatives kin p
                      (ThermoPhase.state th)) ;;
   df1dT <- forM (iota nsp) 0 (df1dT_terms dcvRdT RT) ;;
   (* first term of Eq. (46) of pyjac *)
   let df1dT := df1dT * (inv_mcv * GasConstant) in
   r <- gets jself ;;
   let df1dT_2t :=
     fold_left (fun acc i =>
                  let prod_rate := m_vol r * vget dwdotdT i in
                  acc + vget (m_uk r) i * prod_rate)
               (iota nsp) 0 in
   let df1dT_2t := df1dT_2t * inv_mcv in
   let T_ind := size_add start 2 in
   modify (on_jac (fun J => mset J T_ind T_ind (df1dT - df1dT_2t))) ;;;
   modify (fun s => print (jac s T_ind T_ind) s) ;;;
   let y_ind := size_add start 3 in
   let T := ThermoPhase.temperature th in
   modify (on_jac (fun J =>
     fold_left (fun J i =>
                  mset J (size_add y_ind i) T_ind
                    (vget mw i / m_mass r *
                     ((m_vol r * vget (m_wdot r) i + vget (m_sdot r) i) / T
                      + vget dwdotdT i)))
               (iota nsp) J)))%monad.

End Jacobian.

(* ================================================================= *)
(** ** Component names and indices *)

(** The position of [nm] in [names], counted from [k]; [npos] when [nm] is
    not among them. *)
Fixpoint find_name (nm : string) (names : list string) (k : N) : N :=
  match names with
  | [] => npos
  | x :: names' => if String.eqb nm x then k else find_name nm names' (k + 1)
  end.

(** Modelled from the spec: [Reactor::speciesIndex] is not part of the
    sources.  "If [name] matches a gas species name, returns its index",
    else the not-found sentinel. *)
Definition speciesIndex (r : Reactor) (nm : string) : N :=
  match m_thermo r with
  | Some th => find_name nm (ThermoPhase.speciesNames th) 0
  | None => npos
  end.

(** [IdealGasReactor::componentIndex] *)
Definition componentIndex (r : Reactor) (nm : string) : N :=
  let k := speciesIndex r nm in
  if negb (N.eqb k npos) then size_add k 3
  else if String.eqb nm "mass" then 0%N
  else if String.eqb nm "volume" then 1%N
  else if String.eqb nm "temperature" then 2%N
  else npos.

(** Modelled from the spec: [Reactor::componentName] is not part of the
    sources.  The "generic reactor-base naming" gives "species names for
    3..3+K, surface-species names beyond".  The spec does not say what it
    gives below 3 or past the last surface species; the model reports an
    index out of bounds there. *)
Definition Reactor_componentName (r : Reactor) (k : N) : result string :=
  match m_thermo r with
  | None => Err (NullPointer "m_thermo")
  | Some th =>
      let names := ThermoPhase.speciesNames th
                   ++ List.concat (map Wall.surfaceSpeciesNames (m_wall r)) in
      if (3 <=? k)%N then
        match nth_error names (N.to_nat (k - 3)) with
        | Some nm => Ok nm
        | None => Err (CanteraError "Reactor::componentName" "Index is out of bounds.")
        end
      else Err (CanteraError "Reactor::componentName" "Index is out of bounds.")
  end.

(** [IdealGasReactor::componentName] *)
Definition componentName (r : Reactor) (k : N) : result string :=
  if N.eqb k 2 then Ok "temperature"%string
  else Reactor_componentName r k.

(* ================================================================= *)
(** ** What the properties are stated with *)

(** The number of surface-species unknowns of the walls. *)
Definition nSurfaceUnknowns (walls : list Wall.t) : N :=
  N.of_nat (List.length (List.concat (map initial_block walls))).

(** The state of the sensitivity parameters during a call of [evalEqs]. *)
Definition perturbed_by (c : params_t) (s : Frame) : Prop :=
  perturbation (self s) = c.

(** The net molar production rates of the gas species that [evalEqs] works
    with (lines 90-92): those the kinetics evaluator reports when homogeneous
    chemistry is enabled, else what the buffer [m_wdot] holds. *)
Definition net_production_rates (r : Reactor) (p : params_t) (ts : ThermoState)
  : result (list R) :=
  if m_chem r then
    match m_kin r with
    | Some kin => Kinetics.getNetProductionRates kin p ts
    | None => Err (NullPointer "m_kin")
    end
  else Ok (m_wdot r).

(** The value lines 106-108 leave in [dYdt[n]]. *)
Definition species_rate (r : Reactor) (mw Y : list R) (mdot_surf : R) (n : N) : R :=
  (vget (m_wdot r) n * m_vol r + vget (m_sdot r) n) * vget mw n / m_mass r
  - vget Y n * mdot_surf / m_mass r.

(** [n] zeros. *)
Definition zeros (n : N) : list R := repeat 0 (N.to_nat n).

(** A kinetics evaluator that reports the rates [w]. *)
Definition constant_kinetics (w : list R) : Kinetics.t :=
  Kinetics.mk (fun _ _ => Ok w) (fun _ _ => Ok w).

(** Enabling homogeneous chemistry with a kinetics evaluator that reports
    the rates [w]. *)
Definition with_rates (w : list R) (r : Reactor) : Reactor :=
  set_m_chem true (set_m_kin (Some (constant_kinetics w)) r).

(** The sum of lines 158-160 as the specification words it: the
    temperature derivative of each species' dimensionless heat capacity, over
    its molecular weight, times the species' mass-fraction entry of the state
    vector, the entry at offset [start + 3 + k]. *)
Definition dcvRdT_spec (dCvRdT mw : list R) (y : buffer) (start nsp : N) : R :=
  fold_left (fun dcvRdT k =>
               dcvRdT + vget dCvRdT k / vget mw k * y (size_add (size_add start 3) k))
            (iota nsp) 0.

(* ================================================================= *)
(** ** Reasoning about computations *)

(** [wp m Q E s]: run from [s], the computation [m] either returns a value
    and a state that satisfy [Q], or throws an error in a state that
    satisfies [E]. *)
Definition wp {S A} (m : M S A) (Q : A -> S -> Prop) (E : error -> S -> Prop)
    (s : S) : Prop :=
  match m s with
  | (s', Ok a) => Q a s'
  | (s', Err e) => E e s'
  end.

(** [keeps P m]: the computation [m] preserves the property [P] of the
    state, whether it returns or throws. *)
Definition keeps {S A} (P : S -> Prop) (m : M S A) : Prop :=
  forall s, P s -> wp m (fun _ s' => P s') (fun _ s' => P s') s.

(** [commutes g m]: changing the state by [g] before [m] runs or after it
    has run makes no difference, and the outcome of [m] is the same. *)
Definition commutes {S A} (g : S -> S) (m : M S A) : Prop :=
  forall s, m (g s) = (g (fst (m s)), snd (m s)).

(* ================================================================= *)
(** ** Reactors used as concrete inputs *)

Definition sample_state : ThermoState := mkThermoState 300 2 [1].

(** A one-species property evaluator with type tag [tag]; every computed
    property is [1]. *)
Definition sample_thermo (tag : string) : ThermoPhase.t :=
  ThermoPhase.mk tag ["H2"%string] [1] sample_state
    (fun _ _ => Ok 1) (fun _ _ => Ok 1) (fun _ _ => Ok 1) (fun _ _ => Ok 1)
    (fun _ _ => Ok [1]) (fun _ _ => Ok [1]) (fun _ _ => Ok [1]).

(** A kinetics evaluator whose queries throw. *)
Definition failing_kinetics : Kinetics.t :=
  Kinetics.mk
    (fun _ _ => Err (CanteraError "getNetProductionRates" "failed"))
    (fun _ _ => Err (CanteraError "getNetProductionRateTDerivatives" "failed")).

(** A reactor to which nothing is attached. *)
Definition empty_reactor : Reactor :=
  mkReactor None None sample_state 1 2 1 0 0 0 0 0 false false
            [0] [0] [0] [0] [] [] [] None.

(** A one-species reactor without flow devices and walls, holding
    [sample_state] in a volume of [1]; homogeneous chemistry and the energy
    equation are disabled. *)
Definition sample_reactor : Reactor :=
  mkReactor (Some (sample_thermo "IdealGas")) (Some (constant_kinetics [0]))
            sample_state 1 2 1 0 0 0 0 0 false false
            [0] [0] [0] [0] [] [] [] None.

(** The same with homogeneous chemistry and the energy equation enabled. *)
Definition closed_reactor : Reactor :=
  mkReactor (Some (sample_thermo "IdealGas")) (Some (constant_kinetics [0]))
            sample_state 1 2 1 0 0 0 0 0 true true
            [0] [0] [0] [0] [] [] [] None.

(** The same with homogeneous chemistry enabled and a kinetics evaluator
    that throws. *)
Definition failing_reactor : Reactor :=
  mkReactor (Some (sample_thermo "IdealGas")) (Some failing_kinetics)
            sample_state 1 2 1 0 0 0 0 0 true false
            [0] [0] [0] [0] [] [] [] None.

(** [sample_reactor], homogeneous chemistry disabled, with a rate left in
    the production-rate buffer. *)
Definition stale_reactor : Reactor := set_m_wdot [1] sample_reactor.

Definition zero_buffer : buffer := fun _ => 0.

Definition zero_matrix : matrix := fun _ _ => 0.

(** The state vector of [sample_reactor], as [getState] writes it: mass [2],
    volume [1], temperature [300], mass fraction [1]. *)
Definition sample_vector : buffer := snd (fst (getState zero_buffer sample_reactor)).


(* ================================================================= *)
(** ** Initialization *)

(** [vector<double>::resize(n, v)]: the first [n] elements are kept, and
    the vector is filled up to [n] elements with [v]. *)
Definition resize (n : N) (v : R) (l : list R) : list R :=
  firstn (N.to_nat n) l ++ repeat v (N.to_nat n - List.length l).

Section Initialize.

(** [Reactor::initialize], which is not part of the sources: whatever it
    does to the reactor, and it may throw. *)
Variable Reactor_initialize : R -> M Reactor unit.

(** [IdealGasReactor::initialize] *)
Definition initialize (t0 : R) : M Reactor unit :=
  (Reactor_initialize t0 ;;;
   nsp <- gets m_nsp ;;
   modify (fun r => set_m_uk (resize nsp 0 (m_uk r)) r))%monad.

End Initialize.

(* ================================================================= *)
(** ** What the further properties are stated with *)

(** The sum of a list of rates. *)
Definition Rsum (l : list R) : R := fold_right Rplus 0 l.

(** [r'] is [r] but for the members [evalEqs] assigns: the state of the
    property evaluator, the buffers [m_uk] and [m_wdot], the rates [m_vdot]
    and [m_Q] of the walls, and the perturbation in force. *)
Definition differs_in_evalEqs_members (r r' : Reactor) : Prop :=
  exists th uk wdot vdot Q p,
    r' = set_m_thermo th (set_m_uk uk (set_m_wdot wdot
           (set_m_vdot vdot (set_m_Q Q (set_perturbation p r))))).

(** [r'] is [r] but for the scratch buffers [m_work], [m_uk] and [m_wdot]. *)
Definition differs_in_scratch (r r' : Reactor) : Prop :=
  exists work uk wdot,
    r' = set_m_work work (set_m_uk uk (set_m_wdot wdot r)).

(** During [evalJacEqs]: the reactor of [s'] is that of [s] but for the
    scratch buffers. *)
Definition scratch_only (s s' : JFrame) : Prop :=
  differs_in_scratch (jself s) (jself s').

(** During [evalJacEqs]: nothing has been written to the matrix or to the
    standard output. *)
Definition nothing_written (s s' : JFrame) : Prop :=
  jac s' = jac s /\ cout s' = cout s.

(** During [evalEqs]: the reactor of [s'] is [r] but for the members
    [evalEqs] assigns. *)
Definition evalEqs_members_only (r : Reactor) (s' : Frame) : Prop :=
  differs_in_evalEqs_members r (self s').

(** During [evalEqs]: the property evaluator behind [m_thermo] is [th]. *)
Definition evaluator_is (th : ThermoPhase.t) (s' : Frame) : Prop :=
  m_thermo (self s') = Some th.

(** During [evalEqs]: entry [j] of [ydot] is as in [s], and so are the
    species count and the walls of the reactor. *)
Definition ydot_entry_kept (s : Frame) (j : N) (s' : Frame) : Prop :=
  ydot s' j = ydot s j
  /\ m_nsp (self s') = m_nsp (self s)
  /\ m_wall (self s') = m_wall (self s).

(** During the balances of [evalEqs]: the reactor is [r]. *)
Definition reactor_is (r : Reactor) (s' : Frame) : Prop := self s' = r.

(** During the head of the balances: the flow devices, the walls and the
    energy switch of the reactor are those of [r]. *)
Definition same_devices (r : Reactor) (s' : Frame) : Prop :=
  m_wall (self s') = m_wall r
  /\ m_outlet (self s') = m_outlet r
  /\ m_inlet (self s') = m_inlet r
  /\ m_energy (self s') = m_energy r.

(* ================================================================= *)
(** ** Further concrete inputs *)

(** A flow device that carries the mass flow rate [5]. *)
Definition sample_device : FlowDevice.t :=
  FlowDevice.mk (fun _ => Ok 5) (Ok 1) (fun _ => Ok 5).

(** [closed_reactor] with one inlet and one outlet of equal mass flow. *)
Definition balanced_reactor : Reactor :=
  mkReactor (Some (sample_thermo "IdealGas")) (Some (constant_kinetics [0]))
            sample_state 1 2 1 0 0 0 0 0 true true
            [0] [0] [0] [0] [sample_device] [sample_device] [] None.

(** A property evaluator whose pressure query throws. *)
Definition failing_thermo : ThermoPhase.t :=
  ThermoPhase.mk "IdealGas" ["H2"%string] [1] sample_state
    (fun _ _ => Ok 1) (fun _ _ => Err (CanteraError "pressure" "failed"))
    (fun _ _ => Ok 1) (fun _ _ => Ok 1)
    (fun _ _ => Ok [1]) (fun _ _ => Ok [1]) (fun _ _ => Ok [1]).

(** A state vector: mass [6], volume [2], temperature [400], mass
    fraction [1]. *)
Definition other_vector : buffer :=
  store (store (store (store zero_buffer 0 6) 1 2) 2 400) 3 1.

(** During the head of the balances: what the species loop reads from the
    reactor, and its devices, are as in [r]. *)
Definition same_species_inputs (r : Reactor) (s' : Frame) : Prop :=
  m_wdot (self s') = m_wdot r
  /\ m_sdot (self s') = m_sdot r
  /\ m_vol (self s') = m_vol r
  /\ m_mass (self s') = m_mass r
  /\ m_nsp (self s') = m_nsp r
  /\ m_wall (self s') = m_wall r
  /\ m_inlet (self s') = m_inlet r.

(** During the tail of the balances: the reactor is [r] and the entries of
    the species in [ydot] are those of [yd]. *)
Definition species_entries_are (r : Reactor) (yd : buffer) (s' : Frame) : Prop :=
  self s' = r /\ forall n, (n < m_nsp r)%N -> ydot s' (3 + n)%N = yd (3 + n)%N.

(** During the loops of [evalJacEqs]: the state is [s]. *)
Definition jframe_is (s s' : JFrame) : Prop := s' = s.

(** A wall with two surface species, of initial coverages [1] and [0]. *)
Definition sample_wall : Wall.t :=
  Wall.mk 2 ["PT(S)"%string; "H(S)"%string] [1; 0] [1; 0]
    (fun _ => Ok 0) (fun _ => Ok 0) (fun _ => Ok (Wall.mkRates [0; 0] 0)).

(** [sample_reactor] with [sample_wall] attached. *)
Definition walled_reactor : Reactor := set_m_wall [sample_wall] sample_reactor.

(** [sample_reactor] whose property evaluator is out of step with the
    snapshot: the evaluator holds 500 K and the density 3, the snapshot
    [sample_state] 300 K and the density 2. *)
Definition unsynced_thermo : ThermoPhase.t :=
  ThermoPhase.with_state (mkThermoState 500 3 [1]) (sample_thermo "IdealGas").

Definition unsynced_reactor : Reactor :=
  set_m_thermo (Some unsynced_thermo) sample_reactor.
(* ================================================================= *)
(** ** Arrays: reading back what was stored *)

(** Offsets stay sums in simplified goals. *)
#[local] Arguments N.add : simpl never.

Lemma store_same (b : buffer) (i : N) (v : R) : store b i v i = v.
Proof. unfold store. now rewrite N.eqb_refl. Qed.

Lemma store_other (b : buffer) (i j : N) (v : R) :
  j <> i -> store b i v j = b j.
Proof.
  intros Hne. unfold store.
  destruct (N.eqb_spec j i); [contradiction | reflexivity].
Qed.

Lemma store_list_outside (v : list R) :
  forall (b : buffer) (off j : N),
    (j < off \/ off + N.of_nat (List.length v) <= j)%N ->
    store_list b off v j = b j.
Proof.
  induction v as [| x v IH]; intros b off j Hj; simpl.
  - reflexivity.
  - rewrite IH by (simpl List.length in Hj; lia).
    apply store_other. simpl List.length in Hj. lia.
Qed.

Lemma store_list_inside (v : list R) :
  forall (b : buffer) (off : N) (k : nat),
    (k < List.length v)%nat ->
    store_list b off v (off + N.of_nat k)%N = nth k v 0.
Proof.
  induction v as [| x v IH]; intros b off k Hk; simpl in Hk.
  - lia.
  - destruct k as [| k]; simpl.
    + rewrite store_list_outside by lia.
      rewrite N.add_0_r. apply store_same.
    + replace (off + N.pos (Pos.of_succ_nat k))%N with (off + 1 + N.of_nat k)%N by lia.
      apply IH. lia.
Qed.

Lemma store_list_app (u v : list R) :
  forall (b : buffer) (off : N),
    store_list b off (u ++ v)
    = store_list (store_list b off u) (off + N.of_nat (List.length u))%N v.
Proof.
  induction u as [| x u IH]; intros b off; simpl.
  - now rewrite N.add_0_r.
  - rewrite IH. f_equal. lia.
Qed.

Lemma iota_length (n : N) : List.length (iota n) = N.to_nat n.
Proof. unfold iota. now rewrite length_map, length_seq. Qed.

Lemma in_iota (n k : N) : In k (iota n) <-> (k < n)%N.
Proof.
  unfold iota. rewrite in_map_iff. split.
  - intros [i [<- Hi]]. apply in_seq in Hi. lia.
  - intros Hk. exists (N.to_nat k). split; [lia |]. apply in_seq. lia.
Qed.

Lemma load_list_length (b : buffer) (off n : N) :
  List.length (load_list b off n) = N.to_nat n.
Proof. unfold load_list. now rewrite length_map, iota_length. Qed.

Lemma load_list_nth (b : buffer) (off n : N) (k : nat) :
  (k < N.to_nat n)%nat ->
  nth k (load_list b off n) 0 = b (off + N.of_nat k)%N.
Proof.
  intros Hk. unfold load_list, iota.
  rewrite map_map.
  set (f := fun x : nat => b (off + N.of_nat x)%N).
  rewrite (nth_indep _ 0 (f 0%nat)) by (now rewrite length_map, length_seq).
  rewrite (map_nth f). now rewrite seq_nth.
Qed.

(** Reading back a vector that was just copied into the array gives the
    vector, whatever was written after its end or before its start. *)
Lemma load_list_stored (v : list R) (b b' : buffer) (off : N) :
  (forall k, (k < List.length v)%nat ->
             b' (off + N.of_nat k)%N = store_list b off v (off + N.of_nat k)%N) ->
  load_list b' off (N.of_nat (List.length v)) = v.
Proof.
  intros Hb'.
  apply (nth_ext _ _ 0 0).
  - rewrite load_list_length. lia.
  - intros k Hk. rewrite load_list_length in Hk.
    rewrite load_list_nth by exact Hk.
    rewrite Hb' by lia. apply store_list_inside. lia.
Qed.

Lemma initial_block_length (w : Wall.t) :
  N.of_nat (List.length (initial_block w)) = Wall.nSurfaceSpecies w.
Proof. unfold initial_block. rewrite length_map, iota_length. lia. Qed.

(** The surface part of the state vector is the concatenation of the blocks
    of the walls, in the order of the walls. *)
Lemma getSurfaceInitialConditions_concat (walls : list Wall.t) :
  forall (y : buffer) (loc : N),
    getSurfaceInitialConditions walls y loc
    = store_list y loc (List.concat (map initial_block walls)).
Proof.
  induction walls as [| w ws IH]; intros y loc; simpl.
  - reflexivity.
  - rewrite store_list_app, IH. now rewrite initial_block_length.
Qed.

(* ================================================================= *)
(** ** Attaching the property evaluator: the compatibility gate *)

(** C2.  Attaching a property evaluator whose type tag is not "IdealGas"
    throws the incompatible-phase error and leaves the reactor as it was, so
    a reference that was unset stays unset; attaching one whose type tag is
    "IdealGas" succeeds and sets the reference to it. *)
Theorem setThermoMgr_compatibility_gate (thermo : ThermoPhase.t) (r : Reactor) :
  (ThermoPhase.type thermo <> "IdealGas"%string ->
   setThermoMgr thermo r
   = (r, Err (CanteraError "IdealGasReactor::setThermoMgr"
                           "Incompatible phase type provided")))
  /\
  (ThermoPhase.type thermo = "IdealGas"%string ->
   snd (setThermoMgr thermo r) = Ok tt
   /\ m_thermo (fst (setThermoMgr thermo r)) = Some thermo).
Proof.
  unfold setThermoMgr. split; intros Htag.
  - destruct (String.eqb_spec (ThermoPhase.type thermo) "IdealGas") as [E | _].
    + contradiction.
    + reflexivity.
  - rewrite Htag. simpl. split; reflexivity.
Qed.

Lemma setThermoMgr_compatibility_gate_witness :
  (setThermoMgr (sample_thermo "Surf") empty_reactor
   = (empty_reactor, Err (CanteraError "IdealGasReactor::setThermoMgr"
                                       "Incompatible phase type provided"))
   /\ m_thermo empty_reactor = None)
  /\
  (snd (setThermoMgr (sample_thermo "IdealGas") empty_reactor) = Ok tt
   /\ m_thermo (fst (setThermoMgr (sample_thermo "IdealGas") empty_reactor))
      = Some (sample_thermo "IdealGas")).
Proof.
  split.
  - split.
    + apply (proj1 (setThermoMgr_compatibility_gate (sample_thermo "Surf") empty_reactor)).
      simpl. discriminate.
    + reflexivity.
  - apply (proj2 (setThermoMgr_compatibility_gate (sample_thermo "IdealGas") empty_reactor)).
    reflexivity.
Defined.

(* ================================================================= *)
(** ** The layout of the state vector *)

(** What [getState] does with a property evaluator attached. *)
Lemma getState_attached (y : buffer) (r : Reactor) (th0 : ThermoPhase.t) :
  m_thermo r = Some th0 ->
  let th := ThermoPhase.restoreState (m_state r) th0 in
  let y' := snd (fst (getState y r)) in
  fst (fst (getState y r))
  = set_m_mass (ThermoPhase.density th * m_vol r) (set_m_thermo (Some th) r)
  /\ snd (getState y r) = Ok tt
  /\ y' 0%N = ThermoPhase.density th * m_vol r
  /\ y' 1%N = m_vol r
  /\ y' 2%N = ThermoPhase.temperature th
  /\ (m_nsp r = ThermoPhase.nSpecies th ->
      load_list y' 3 (m_nsp r) = ThermoPhase.massFractions th
      /\ load_list y' (m_nsp r + 3) (nSurfaceUnknowns (m_wall r))
         = List.concat (map initial_block (m_wall r))).
Proof.
  intros Hth. unfold getState. rewrite Hth. cbv zeta. simpl fst. simpl snd.
  rewrite getSurfaceInitialConditions_concat.
  unfold ThermoPhase.getMassFractions. simpl m_wall. simpl m_nsp. simpl m_vol.
  simpl m_mass.
  split; [reflexivity | split; [reflexivity |]].
  split; [| split; [| split]].
  - rewrite !store_list_outside by lia.
    rewrite !store_other by lia. apply store_same.
  - rewrite !store_list_outside by lia.
    rewrite store_other by lia. apply store_same.
  - rewrite !store_list_outside by lia. apply store_same.
  - intros HK. split.
    + rewrite HK. unfold ThermoPhase.nSpecies.
      eapply load_list_stored. intros k Hk.
      apply store_list_outside. left. unfold ThermoPhase.nSpecies. lia.
    + unfold nSurfaceUnknowns. eapply load_list_stored. intros k Hk. reflexivity.
Qed.

(** C3.  [getState] throws exactly when no property evaluator is attached,
    and then leaves [y] (and the reactor) as they were.  With a property
    evaluator attached it succeeds; it has put the evaluator on the reactor's
    snapshot and left the volume of the reactor alone, and what it leaves in
    [y] is: the density of the snapshot (the one that evaluator now holds)
    times the reactor's volume at [0], the reactor's volume at [1], the
    temperature of the snapshot at [2]; with [K = m_nsp] gas species, the [K]
    mass fractions of the snapshot from [3] on and, behind them, the blocks
    of initial coverages of the walls, wall after wall, each as long as the
    wall has surface species. *)
Theorem getState_layout (y : buffer) (r : Reactor) :
  (is_ok (snd (getState y r)) = false <-> m_thermo r = None)
  /\
  (m_thermo r = None -> fst (getState y r) = (r, y))
  /\
  (forall th0, m_thermo r = Some th0 ->
     let r' := fst (fst (getState y r)) in
     let y' := snd (fst (getState y r)) in
     let th := ThermoPhase.restoreState (m_state r) th0 in
     snd (getState y r) = Ok tt
     /\ m_thermo r' = Some th
     /\ ThermoPhase.state th = m_state r
     /\ m_vol r' = m_vol r
     /\ y' 0%N = ThermoPhase.density th * m_vol r
     /\ y' 0%N = ts_rho (m_state r) * m_vol r
     /\ y' 1%N = m_vol r
     /\ y' 2%N = ThermoPhase.temperature th
     /\ y' 2%N = ts_T (m_state r)
     /\ (m_nsp r = N.of_nat (List.length (ts_Y (m_state r))) ->
         load_list y' 3 (m_nsp r) = ThermoPhase.massFractions th
         /\ load_list y' 3 (m_nsp r) = ts_Y (m_state r)
         /\ load_list y' (m_nsp r + 3) (nSurfaceUnknowns (m_wall r))
            = List.concat (map initial_block (m_wall r)))).
Proof.
  split; [| split].
  - unfold getState. destruct (m_thermo r); simpl; split; intros H; congruence.
  - unfold getState. intros ->. reflexivity.
  - intros th0 Hth r' y' th.
    destruct (getState_attached y r th0 Hth) as [Hr [Hok [H0 [H1 [H2 Hblocks]]]]].
    fold y' in H0, H1, H2, Hblocks. fold th in Hr, H0, H2, Hblocks.
    split; [exact Hok |].
    split; [subst r'; rewrite Hr; reflexivity |].
    split; [reflexivity |].
    split; [subst r'; rewrite Hr; reflexivity |].
    split; [exact H0 |]. split; [exact H0 |].
    split; [exact H1 |].
    split; [exact H2 |]. split; [exact H2 |].
    intros HK. destruct (Hblocks HK) as [HY HS].
    split; [exact HY |]. split; [exact HY | exact HS].
Qed.

Lemma getState_layout_witness :
  (m_thermo empty_reactor = None
   /\ fst (getState zero_buffer empty_reactor) = (empty_reactor, zero_buffer))
  /\
  (let y' := snd (fst (getState zero_buffer walled_reactor)) in
   snd (getState zero_buffer walled_reactor) = Ok tt
   /\ y' 0%N = ts_rho (m_state walled_reactor) * m_vol walled_reactor
   /\ y' 1%N = m_vol walled_reactor
   /\ y' 2%N = ts_T (m_state walled_reactor)
   /\ load_list y' 3 (m_nsp walled_reactor) = ts_Y (m_state walled_reactor)
   /\ load_list y' (m_nsp walled_reactor + 3)
                 (nSurfaceUnknowns (m_wall walled_reactor))
      = List.concat (map initial_block (m_wall walled_reactor))).
Proof.
  split.
  - split; [reflexivity |].
    apply (proj1 (proj2 (getState_layout zero_buffer empty_reactor))). reflexivity.
  - destruct (proj2 (proj2 (getState_layout zero_buffer walled_reactor))
                (sample_thermo "IdealGas") eq_refl)
      as [Hok [_ [_ [_ [_ [H0 [H1 [_ [H2 Hblocks]]]]]]]]].
    destruct (Hblocks eq_refl) as [_ [HY HS]].
    repeat split; assumption.
Defined.

(* ================================================================= *)
(** ** Round trip through the state vector *)

(** The state [updateState] leaves in the property evaluator; it is set
    before the cached properties are queried, so it is there on every
    outcome of the call. *)
Lemma updateState_thermo (y : buffer) (r : Reactor) (th : ThermoPhase.t) :
  m_thermo r = Some th ->
  m_thermo (fst (updateState y r))
  = Some (ThermoPhase.setState_TR (y 2%N) (y 0%N / y 1%N)
            (ThermoPhase.setMassFractions_NoNorm y 3 th)).
Proof.
  intros Hth. unfold updateState, bind, modify, gets, lift, deref, ret.
  simpl. rewrite Hth. simpl.
  repeat match goal with
         | |- context [match ?x with Ok _ => _ | Err _ => _ end] =>
             destruct x; simpl
         end; reflexivity.
Qed.

(** C4 (amended).  Take a reactor with a property evaluator attached, whose state
    (the one [getState] restores into the evaluator) has positive mass and
    volume, and whose species count is that of the evaluator.  After
    [getState] and then [updateState] on the vector produced, the evaluator
    holds the density, the temperature and the mass fractions it held when
    the vector was produced (those of the reactor's state), on every outcome
    of [updateState]; they are those it held before the two calls when it
    was holding the reactor's state then. *)
Theorem getState_updateState_round_trip
    (y : buffer) (r : Reactor) (th0 : ThermoPhase.t) :
  m_thermo r = Some th0 ->
  m_nsp r = N.of_nat (List.length (ts_Y (m_state r))) ->
  0 < m_vol r ->
  0 < ts_rho (m_state r) * m_vol r ->
  let r1 := fst (fst (getState y r)) in
  let y1 := snd (fst (getState y r)) in
  let r2 := fst (updateState y1 r1) in
  exists th1 th2,
    m_thermo r1 = Some th1
    /\ m_thermo r2 = Some th2
    /\ ThermoPhase.density th2 = ThermoPhase.density th1
    /\ ThermoPhase.temperature th2 = ThermoPhase.temperature th1
    /\ ThermoPhase.massFractions th2 = ThermoPhase.massFractions th1
    /\ ThermoPhase.state th1 = m_state r
    /\ (ThermoPhase.state th0 = m_state r ->
        ThermoPhase.state th2 = ThermoPhase.state th0).
Proof.
  intros Hth Hnsp Hvol Hmass r1 y1 r2.
  destruct (getState_attached y r th0 Hth) as [Hr [_ [H0 [H1 [H2 Hblocks]]]]].
  fold y1 in H0, H1, H2, Hblocks.
  set (th1 := ThermoPhase.restoreState (m_state r) th0) in *.
  assert (HK : m_nsp r = ThermoPhase.nSpecies th1) by exact Hnsp.
  destruct (Hblocks HK) as [HY _].
  assert (Hth1 : m_thermo r1 = Some th1) by (subst r1; rewrite Hr; reflexivity).
  assert (Hth2 := updateState_thermo y1 r1 th1 Hth1). fold r2 in Hth2.
  exists th1, (ThermoPhase.setState_TR (y1 2%N) (y1 0%N / y1 1%N)
                 (ThermoPhase.setMassFractions_NoNorm y1 3 th1)).
  assert (Hrho : y1 0%N / y1 1%N = ThermoPhase.density th1).
  { rewrite H0, H1. field. lra. }
  assert (HYs : load_list y1 3 (ThermoPhase.nSpecies th1)
                = ThermoPhase.massFractions th1) by (rewrite <- HK; exact HY).
  split; [exact Hth1 | split; [exact Hth2 |]].
  unfold ThermoPhase.density, ThermoPhase.temperature, ThermoPhase.massFractions
    in *.
  simpl. rewrite Hrho, H2.
  repeat split.
  - exact HYs.
  - intros Hsync.
    change (ThermoPhase.massFractions (ThermoPhase.setMassFractions_NoNorm y1 3 th1))
      with (load_list y1 3 (ThermoPhase.nSpecies th1)).
    rewrite HYs, Hsync. subst th1. simpl. now destruct (m_state r).
Qed.

Lemma getState_updateState_round_trip_witness :
  (0 < m_vol sample_reactor /\ 0 < ts_rho (m_state sample_reactor) * m_vol sample_reactor)
  /\
  exists th1 th2,
    m_thermo (fst (fst (getState zero_buffer sample_reactor))) = Some th1
    /\ m_thermo (fst (updateState (snd (fst (getState zero_buffer sample_reactor)))
                                  (fst (fst (getState zero_buffer sample_reactor)))))
       = Some th2
    /\ ThermoPhase.density th2 = ThermoPhase.density th1
    /\ ThermoPhase.temperature th2 = ThermoPhase.temperature th1
    /\ ThermoPhase.massFractions th2 = ThermoPhase.massFractions th1
    /\ ThermoPhase.state th1 = m_state sample_reactor
    /\ (ThermoPhase.state (sample_thermo "IdealGas") = m_state sample_reactor ->
        ThermoPhase.state th2 = ThermoPhase.state (sample_thermo "IdealGas")).
Proof.
  split.
  - simpl. split; lra.
  - apply (getState_updateState_round_trip zero_buffer sample_reactor
             (sample_thermo "IdealGas")).
    + reflexivity.
    + reflexivity.
    + simpl. lra.
    + simpl. lra.
Defined.

(** C4, as stated, fails: the property evaluator of [unsynced_reactor]
    holds 500 K and the density 3 while the reactor's snapshot holds 300 K
    and the density 2 (mass and volume positive either way).  [getState]
    restores the snapshot before it reads, so after [getState] and
    [updateState] the evaluator holds 300 K and the density 2, not what it
    held before the two calls. *)
Lemma round_trip_from_unsynced_evaluator :
  let r := unsynced_reactor in
  let r1 := fst (fst (getState zero_buffer r)) in
  let y1 := snd (fst (getState zero_buffer r)) in
  let r2 := fst (updateState y1 r1) in
  m_thermo r = Some unsynced_thermo
  /\ 0 < m_vol r /\ 0 < m_mass r
  /\ 0 < ThermoPhase.density unsynced_thermo * m_vol r
  /\ snd (getState zero_buffer r) = Ok tt
  /\ snd (updateState y1 r1) = Ok tt
  /\ ThermoPhase.temperature unsynced_thermo = 500
  /\ ThermoPhase.density unsynced_thermo = 3
  /\ exists th2,
       m_thermo r2 = Some th2
       /\ ThermoPhase.temperature th2 = 300
       /\ ThermoPhase.density th2 = 2
       /\ ThermoPhase.temperature th2 <> ThermoPhase.temperature unsynced_thermo
       /\ ThermoPhase.density th2 <> ThermoPhase.density unsynced_thermo.
Proof.
  cbv zeta.
  repeat (split; [solve [reflexivity | vm_compute; lra] |]).
  eexists. split; [vm_compute; reflexivity |].
  vm_compute. repeat split; lra.
Qed.

(* ================================================================= *)
(** ** Rules for [wp] *)

Section WpRules.

Context {S : Type}.
Implicit Types (s : S) (E : error -> S -> Prop).

Lemma wp_ret {A} (a : A) (Q : A -> S -> Prop) E s :
  Q a s -> wp (ret a) Q E s.
Proof. intros H. exact H. Qed.

Lemma wp_throw {A} (e : error) (Q : A -> S -> Prop) E s :
  E e s -> wp (throw e) Q E s.
Proof. intros H. exact H. Qed.

Lemma wp_gets {A} (f : S -> A) (Q : A -> S -> Prop) E s :
  Q (f s) s -> wp (gets f) Q E s.
Proof. intros H. exact H. Qed.

Lemma wp_modify (f : S -> S) (Q : unit -> S -> Prop) E s :
  Q tt (f s) -> wp (modify f) Q E s.
Proof. intros H. exact H. Qed.

Lemma wp_lift {A} (x : result A) (Q : A -> S -> Prop) E s :
  (forall a, x = Ok a -> Q a s) -> (forall e, x = Err e -> E e s) ->
  wp (lift x) Q E s.
Proof. intros HQ HE. unfold wp, lift. destruct x; auto. Qed.

Lemma wp_deref {A} (member : string) (p : option A) (Q : A -> S -> Prop) E s :
  (forall a, p = Some a -> Q a s) -> (p = None -> E (NullPointer member) s) ->
  wp (deref member p) Q E s.
Proof. intros HQ HE. unfold wp, deref. destruct p; simpl; auto. Qed.

Lemma wp_bind {A B} (m : M S A) (k : A -> M S B) (Q : B -> S -> Prop) E s :
  wp m (fun a s' => wp (k a) Q E s') E s -> wp (bind m k) Q E s.
Proof.
  unfold wp, bind. destruct (m s) as [s' [a | e]]; intros H; exact H.
Qed.

Lemma wp_mono {A} (m : M S A) (Q Q' : A -> S -> Prop) E E' s :
  wp m Q E s ->
  (forall a s', Q a s' -> Q' a s') ->
  (forall e s', E e s' -> E' e s') ->
  wp m Q' E' s.
Proof.
  unfold wp. destruct (m s) as [s' [a | e]]; intros H HQ HE; auto.
Qed.

(** A loop keeps an invariant [I] of its local variables and the state
    when its body does. *)
Lemma wp_forM {A X} (body : A -> X -> M S A) (I : A -> S -> Prop) E
      (l : list X) :
  (forall acc x s, In x l -> I acc s -> wp (body acc x) I E s) ->
  forall acc s, I acc s -> wp (forM l acc body) I E s.
Proof.
  induction l as [| x l IH]; intros Hbody acc s HI; simpl.
  - apply wp_ret. exact HI.
  - apply wp_bind.
    apply wp_mono with (Q := I) (E := E).
    + apply Hbody; [now left | exact HI].
    + intros acc' s' HI'. apply IH; [| exact HI'].
      intros acc0 x0 s0 Hin. apply Hbody. now right.
    + auto.
Qed.

End WpRules.

(* ================================================================= *)
(** ** Rules for [keeps] *)

Section KeepsRules.

Context {S : Type} (P : S -> Prop).

Lemma keeps_ret {A} (a : A) : keeps P (ret a).
Proof. intros s H. exact H. Qed.

Lemma keeps_throw {A} (e : error) : keeps P (@throw S A e).
Proof. intros s H. exact H. Qed.

Lemma keeps_gets {A} (f : S -> A) : keeps P (gets f).
Proof. intros s H. exact H. Qed.

Lemma keeps_lift {A} (x : result A) : keeps P (lift x).
Proof. intros s H. unfold wp, lift. destruct x; exact H. Qed.

Lemma keeps_deref {A} (member : string) (p : option A) : keeps P (deref member p).
Proof. intros s H. unfold wp, deref. destruct p; exact H. Qed.

Lemma keeps_modify (f : S -> S) :
  (forall s, P s -> P (f s)) -> keeps P (modify f).
Proof. intros Hf s H. apply Hf. exact H. Qed.

Lemma keeps_bind {A B} (m : M S A) (k : A -> M S B) :
  keeps P m -> (forall a, keeps P (k a)) -> keeps P (bind m k).
Proof.
  intros Hm Hk s H. apply wp_bind.
  eapply wp_mono; [apply Hm; exact H | | auto].
  intros a s' H'. apply Hk. exact H'.
Qed.

Lemma keeps_forM {A X} (body : A -> X -> M S A) (l : list X) (acc : A) :
  (forall acc x, keeps P (body acc x)) -> keeps P (forM l acc body).
Proof.
  intros Hbody s H.
  apply (wp_forM body (fun _ s' => P s')); [| exact H].
  intros acc0 x s0 _ H0. apply Hbody. exact H0.
Qed.

Lemma keeps_if {A} (b : bool) (m1 m2 : M S A) :
  keeps P m1 -> keeps P m2 -> keeps P (if b then m1 else m2).
Proof. destruct b; auto. Qed.

End KeepsRules.

(** Takes a computation apart along its structure. *)
Ltac keeps_step :=
  cbv beta zeta;
  lazymatch goal with
  | |- keeps _ (bind _ _) => apply keeps_bind; [| intros ?]
  | |- keeps _ (ret _) => apply keeps_ret
  | |- keeps _ (throw _) => apply keeps_throw
  | |- keeps _ (gets _) => apply keeps_gets
  | |- keeps _ (lift _) => apply keeps_lift
  | |- keeps _ (deref _ _) => apply keeps_deref
  | |- keeps _ (if _ then _ else _) => apply keeps_if
  | |- keeps _ (forM _ _ _) => apply keeps_forM; intros ? ?
  | |- keeps _ (modify _) => apply keeps_modify; intros ? ?; try assumption
  end.

Ltac keeps_steps := repeat keeps_step.

(* ================================================================= *)
(** ** The sensitivity perturbation during [evalEqs] *)

Section Perturbation.

Variable c : params_t.

Lemma thermo_keeps_perturbation : keeps (perturbed_by c) thermo.
Proof. intros s H. unfold thermo. apply keeps_deref. exact H. Qed.

Lemma kinetics_keeps_perturbation : keeps (perturbed_by c) kinetics.
Proof. intros s H. unfold kinetics. apply keeps_deref. exact H. Qed.

Lemma evalWalls_keeps_perturbation (time : R) :
  keeps (perturbed_by c) (evalWalls time).
Proof. unfold evalWalls. keeps_steps. Qed.

Lemma evalSurfaces_keeps_perturbation (time : R) (off : N) :
  keeps (perturbed_by c) (evalSurfaces time off).
Proof. unfold evalSurfaces. keeps_steps. Qed.

Lemma species_terms_keeps_perturbation mw Y mdot_surf mcvdTdt n :
  keeps (perturbed_by c) (species_terms mw Y mdot_surf mcvdTdt n).
Proof. unfold species_terms. keeps_steps. Qed.

Lemma outlet_terms_keeps_perturbation time acc o :
  keeps (perturbed_by c) (outlet_terms time acc o).
Proof. unfold outlet_terms. keeps_steps. Qed.

Lemma inlet_terms_keeps_perturbation time mw Y acc i :
  keeps (perturbed_by c) (inlet_terms time mw Y acc i).
Proof. unfold inlet_terms, inlet_species_terms. keeps_steps. Qed.

End Perturbation.


(** Proves that a part of [evalEqs] keeps the perturbation in force. *)
Ltac keeps_perturbation :=
  repeat first
    [ keeps_step
    | lazymatch goal with
      | |- keeps _ thermo => apply thermo_keeps_perturbation
      | |- keeps _ kinetics => apply kinetics_keeps_perturbation
      | |- keeps _ (evalWalls _) => apply evalWalls_keeps_perturbation
      | |- keeps _ (evalSurfaces _ _) => apply evalSurfaces_keeps_perturbation
      | |- keeps _ (species_terms _ _ _ _ _) => apply species_terms_keeps_perturbation
      | |- keeps _ (outlet_terms _ _ _) => apply outlet_terms_keeps_perturbation
      | |- keeps _ (inlet_terms _ _ _ _ _) => apply inlet_terms_keeps_perturbation
      end ].

(** One step of [evalEqs] between applying and reverting the perturbation,
    in a [wp] goal whose error condition holds while the perturbation is in
    force. *)
Ltac keep_perturbation :=
  cbv beta zeta;
  lazymatch goal with
  | H : perturbed_by ?c ?s |- wp (bind ?m _) _ _ ?s =>
      apply wp_bind;
      apply wp_mono with (Q := fun _ s' => perturbed_by c s')
                         (E := fun _ s' => perturbed_by c s');
      [ let K := fresh "K" in
        assert (K : keeps (perturbed_by c) m) by keeps_perturbation;
        exact (K s H)
      | clear H; intros ? ? H
      | clear H; intros ? ? H; right; exact H ]
  end.

(** Where the perturbation stands after [evalEqs], started with unperturbed
    parameters: reverted when the call returns; when the call throws, the
    revert at the end of the function has not run, and the parameters given
    are still in force (a null [m_thermo] ends the call before they are
    applied). *)
Lemma evalEqs_perturbation (time : R) (y : buffer) (params : params_t) (s : Frame) :
  perturbation (self s) = None ->
  wp (evalEqs time y params)
     (fun _ s' => perturbation (self s') = None)
     (fun _ s' => m_thermo (self s) = None \/ perturbation (self s') = params)
     s.
Proof.
  intros Hs. unfold evalEqs. cbv zeta.
  apply wp_bind. unfold thermo at 1. apply wp_deref; [| intros Hnull; now left].
  intros th _.
  apply wp_bind. apply wp_gets.
  apply wp_bind. apply wp_modify.
  apply wp_bind. apply wp_modify.
  assert (H : perturbed_by params
                (on_self (applySensitivity params)
                   (on_self (set_m_thermo
                               (Some (ThermoPhase.restoreState (m_state (self s)) th)))
                      s))).
  { unfold perturbed_by. destruct params; simpl; [reflexivity | exact Hs]. }
  revert H. generalize (on_self (applySensitivity params)
                   (on_self (set_m_thermo
                               (Some (ThermoPhase.restoreState (m_state (self s)) th)))
                      s)).
  intros s1 H.
  repeat keep_perturbation.
  unfold evalEqs_balances. cbv zeta.
  repeat keep_perturbation.
  apply wp_modify.
  unfold perturbed_by in H. destruct params; simpl; [reflexivity | exact H].
Qed.

(** C1 (amended).  Started with unperturbed parameters, a call of
    [evalEqs] that returns leaves the parameters unperturbed: the
    perturbation applied at the start of the evaluation has been reverted. *)
Theorem evalEqs_reverts_on_return
    (time : R) (y : buffer) (params : params_t) (s s' : Frame) :
  perturbation (self s) = None ->
  evalEqs time y params s = (s', Ok tt) ->
  perturbation (self s') = None.
Proof.
  intros Hs Hrun.
  pose proof (evalEqs_perturbation time y params s Hs) as H.
  unfold wp in H. rewrite Hrun in H. exact H.
Qed.

Lemma evalEqs_reverts_on_return_witness :
  perturbation
    (self (fst (evalEqs 0 zero_buffer (Some [1]) (mkFrame sample_reactor zero_buffer))))
  = None.
Proof.
  apply (evalEqs_reverts_on_return 0 zero_buffer (Some [1])
           (mkFrame sample_reactor zero_buffer)).
  - reflexivity.
  - vm_compute. reflexivity.
Defined.

(** On the error path nothing reverts the perturbation: with a property
    evaluator attached, a call of [evalEqs] that throws leaves the
    parameters it was given in force. *)
Lemma evalEqs_no_revert_on_throw
    (time : R) (y : buffer) (params : params_t) (s s' : Frame) (e : error) :
  perturbation (self s) = None ->
  m_thermo (self s) <> None ->
  evalEqs time y params s = (s', Err e) ->
  perturbation (self s') = params.
Proof.
  intros Hs Hth Hrun.
  pose proof (evalEqs_perturbation time y params s Hs) as H.
  unfold wp in H. rewrite Hrun in H. destruct H as [H | H]; [contradiction | exact H].
Qed.

(** C1, as stated, fails: the kinetics evaluator of [failing_reactor]
    throws, [evalEqs] ends with that error, and the parameters, unperturbed
    before the call, are left perturbed. *)
Lemma evalEqs_leaks_perturbation_on_throw :
  perturbation failing_reactor = None
  /\ snd (evalEqs 0 zero_buffer (Some [1]) (mkFrame failing_reactor zero_buffer))
     = Err (CanteraError "getNetProductionRates" "failed")
  /\ perturbation
       (self (fst (evalEqs 0 zero_buffer (Some [1])
                     (mkFrame failing_reactor zero_buffer))))
     = Some [1].
Proof. vm_compute. repeat split. Qed.

Lemma wp_thermo (th : ThermoPhase.t) (Q : ThermoPhase.t -> Frame -> Prop) E s :
  m_thermo (self s) = Some th -> Q th s -> wp thermo Q E s.
Proof. intros Hth HQ. unfold wp, thermo. rewrite Hth. exact HQ. Qed.


Lemma wp_lift_ok {S A} (x : result A) (a : A) (Q : A -> S -> Prop) E (s : S) :
  x = Ok a -> Q a s -> wp (lift x) Q E s.
Proof. intros -> HQ. exact HQ. Qed.

(* ================================================================= *)
(** ** The species loop of [evalEqs] *)

(** The loop over the species returns; it leaves [species_rate] in the
    entry of each species it visits, and every other entry of [ydot] and the
    reactor as they were. *)
Lemma species_loop_run (mw Y : list R) (mdot_surf : R) (l : list N) :
  forall (mcvdTdt : R) (s : Frame),
  exists (mcvdTdt' : R) (yd' : buffer),
    forM l mcvdTdt (species_terms mw Y mdot_surf) s
    = (mkFrame (self s) yd', Ok mcvdTdt')
    /\ (forall n, In n l -> yd' (3 + n)%N = species_rate (self s) mw Y mdot_surf n)
    /\ (forall j, (forall n, In n l -> j <> (3 + n)%N) -> yd' j = ydot s j).
Proof.
  induction l as [| x l IH]; intros mcvdTdt s.
  - exists mcvdTdt, (ydot s). simpl. unfold ret.
    split; [now destruct s | split; [intros n [] | reflexivity]].
  - simpl forM. unfold bind at 1.
    unfold species_terms at 1, bind, gets, modify, ret, on_ydot. simpl.
    match goal with
    | |- context [forM l ?a _ ?s1] => destruct (IH a s1) as [m' [yd' [Hrun [Hin Hout]]]]
    end.
    rewrite Hrun. simpl in *. exists m', yd'.
    split; [reflexivity | split].
    + intros n [<- | Hn].
      * destruct (in_dec N.eq_dec x l) as [Hx | Hx]; [now apply Hin |].
        rewrite Hout by (intros n Hn E; apply Hx; replace x with n by lia; exact Hn).
        rewrite store_same. rewrite store_same. reflexivity.
      * now apply Hin.
    + intros j Hj. rewrite Hout by (intros n Hn; apply Hj; now right).
      rewrite !store_other by (apply Hj; now left). reflexivity.
Qed.

Lemma wp_run {S A} (m : M S A) (a : A) (Q : A -> S -> Prop) E (s s' : S) :
  m s = (s', Ok a) -> Q a s' -> wp m Q E s.
Proof. intros Hrun HQ. unfold wp. rewrite Hrun. exact HQ. Qed.

(* ================================================================= *)
(** ** No flow, no reaction *)






(* ================================================================= *)
(** ** Rules for [commutes] *)

Section CommutesRules.

Context {S : Type} (g : S -> S).

Lemma commutes_ret {A} (a : A) : commutes g (ret a).
Proof. intros s. reflexivity. Qed.

Lemma commutes_throw {A} (e : error) : commutes g (@throw S A e).
Proof. intros s. reflexivity. Qed.

Lemma commutes_lift {A} (x : result A) : commutes g (lift x).
Proof. intros s. reflexivity. Qed.

Lemma commutes_gets {A} (f : S -> A) :
  (forall s, f (g s) = f s) -> commutes g (gets f).
Proof. intros Hf s. unfold gets. simpl. now rewrite Hf. Qed.

Lemma commutes_modify (h : S -> S) :
  (forall s, h (g s) = g (h s)) -> commutes g (modify h).
Proof. intros Hh s. unfold modify. simpl. now rewrite Hh. Qed.

Lemma commutes_bind {A B} (m : M S A) (k : A -> M S B) :
  commutes g m -> (forall a, commutes g (k a)) -> commutes g (bind m k).
Proof.
  intros Hm Hk s. unfold bind. rewrite Hm.
  destruct (m s) as [s' [a | e]]; simpl.
  - apply Hk.
  - reflexivity.
Qed.

(** Reading something that [g] changes is harmless when what follows
    does not depend on the change. *)
Lemma commutes_bind_gets {A B} (f : S -> A) (k : A -> M S B) :
  (forall s, k (f (g s)) = k (f s)) ->
  (forall a, commutes g (k a)) ->
  commutes g (bind (gets f) k).
Proof.
  intros Hf Hk s. unfold bind, gets. rewrite Hf. apply Hk.
Qed.

Lemma commutes_forM {A X} (body : A -> X -> M S A) (l : list X) :
  (forall acc x, commutes g (body acc x)) ->
  forall acc, commutes g (forM l acc body).
Proof.
  intros Hbody. induction l as [| x l IH]; intros acc; simpl.
  - apply commutes_ret.
  - apply commutes_bind; [apply Hbody | exact IH].
Qed.

Lemma commutes_if {A} (b : bool) (m1 m2 : M S A) :
  commutes g m1 -> commutes g m2 -> commutes g (if b then m1 else m2).
Proof. destruct b; auto. Qed.

End CommutesRules.

(** Takes a computation apart along its structure; what is left are the
    reads and writes of the state. *)
Ltac commutes_step :=
  cbv beta zeta;
  lazymatch goal with
  | |- commutes _ (bind (gets self) _) =>
      apply commutes_bind_gets; [intros ?; reflexivity | intros ?]
  | |- commutes _ (bind _ _) => apply commutes_bind; [| intros ?]
  | |- commutes _ (ret _) => apply commutes_ret
  | |- commutes _ (throw _) => apply commutes_throw
  | |- commutes _ (lift _) => apply commutes_lift
  | |- commutes _ (if _ then _ else _) => apply commutes_if
  | |- commutes _ (forM _ _ _) => apply commutes_forM; intros ? ?
  | |- commutes _ (gets _) => apply commutes_gets; intros ?; reflexivity
  | |- commutes _ (modify _) => apply commutes_modify; intros ?; reflexivity
  end.

(* ================================================================= *)
(** ** Homogeneous chemistry disabled *)

Section ChemistrySwitch.

Variable w : list R.

(** Once the production rates are fetched, [evalEqs] looks neither at the
    chemistry switch nor at the kinetics evaluator. *)
Lemma evalEqs_balances_commutes time params th p :
  commutes (on_self (with_rates w)) (evalEqs_balances time params th p).
Proof.
  unfold evalEqs_balances, evalWalls, evalSurfaces, species_terms,
    outlet_terms, inlet_terms, inlet_species_terms.
  repeat commutes_step.
  apply commutes_modify. intros s. destruct params; reflexivity.
Qed.

End ChemistrySwitch.

#[local] Arguments evalEqs_balances : simpl never.

Lemma set_m_wdot_same (r : Reactor) : set_m_wdot (m_wdot r) r = r.
Proof. now destruct r. Qed.

(** The head of [evalEqs], case by case. *)
Lemma evalEqs_head (time : R) (y : buffer) (params : params_t) (s : Frame) :
  evalEqs time y params s
  = match m_thermo (self s) with
    | None => (s, Err (NullPointer "m_thermo"))
    | Some th0 =>
        let th := ThermoPhase.restoreState (m_state (self s)) th0 in
        let s1 := on_self (applySensitivity params)
                          (on_self (set_m_thermo (Some th)) s) in
        let p := perturbation (self s1) in
        match ThermoPhase.getPartialMolarIntEnergies p th with
        | Err e => (s1, Err e)
        | Ok uk =>
            let s2 := on_self (set_m_uk uk) s1 in
            if m_chem (self s2) then
              match m_kin (self s2) with
              | None => (s2, Err (NullPointer "m_kin"))
              | Some kin =>
                  match Kinetics.getNetProductionRates kin p (ThermoPhase.state th) with
                  | Err e => (s2, Err e)
                  | Ok wdot =>
                      evalEqs_balances time params th p
                                       (on_self (set_m_wdot wdot) s2)
                  end
              end
            else evalEqs_balances time params th p s2
        end
    end.
Proof.
  unfold evalEqs, thermo, kinetics, deref, bind, gets, modify, lift, ret, throw.
  cbv zeta.
  destruct (m_thermo (self s)) as [th0 |]; [| reflexivity].
  destruct (ThermoPhase.getPartialMolarIntEnergies _ _) as [uk | e];
    [| reflexivity].
  destruct (m_chem _); [| reflexivity].
  destruct (m_kin _) as [kin |]; [| reflexivity].
  destruct (Kinetics.getNetProductionRates _ _ _); reflexivity.
Qed.

(** With homogeneous chemistry disabled, [evalEqs] takes the production
    rates from the buffer [m_wdot] as it finds it: the call does what it
    does with chemistry enabled and a kinetics evaluator that reports the
    contents of the buffer. *)
Lemma evalEqs_chemistry_disabled_uses_buffer
    (time : R) (y : buffer) (params : params_t) (s : Frame) :
  m_chem (self s) = false ->
  let g := on_self (with_rates (m_wdot (self s))) in
  evalEqs time y params (g s)
  = (g (fst (evalEqs time y params s)), snd (evalEqs time y params s)).
Proof.
  intros Hchem g. rewrite !evalEqs_head.
  replace (m_thermo (self (g s))) with (m_thermo (self s)) by reflexivity.
  destruct (m_thermo (self s)) as [th0 |]; [| reflexivity].
  cbv zeta.
  replace (m_state (self (g s))) with (m_state (self s)) by reflexivity.
  set (th := ThermoPhase.restoreState (m_state (self s)) th0).
  set (s1 := on_self (applySensitivity params) (on_self (set_m_thermo (Some th)) s)).
  assert (Hs1 : on_self (applySensitivity params)
                  (on_self (set_m_thermo (Some th)) (g s)) = g s1).
  { subst s1 g. destruct params; reflexivity. }
  rewrite Hs1.
  replace (perturbation (self (g s1))) with (perturbation (self s1)) by reflexivity.
  destruct (ThermoPhase.getPartialMolarIntEnergies _ th) as [uk | e];
    [| reflexivity].
  assert (Hchem2 : m_chem (self (on_self (set_m_uk uk) s1)) = false).
  { subst s1. destruct params; exact Hchem. }
  assert (Hwdot2 : m_wdot (self (on_self (set_m_uk uk) s1)) = m_wdot (self s)).
  { subst s1. destruct params; reflexivity. }
  rewrite Hchem2.
  replace (m_chem (self (on_self (set_m_uk uk) (g s1)))) with true by reflexivity.
  replace (m_kin (self (on_self (set_m_uk uk) (g s1))))
    with (Some (constant_kinetics (m_wdot (self s)))) by reflexivity.
  simpl Kinetics.getNetProductionRates.
  assert (Hg : on_self (set_m_wdot (m_wdot (self s))) (on_self (set_m_uk uk) (g s1))
               = g (on_self (set_m_uk uk) s1)).
  { change (on_self (set_m_uk uk) (g s1)) with (g (on_self (set_m_uk uk) s1)).
    rewrite <- Hwdot2.
    generalize (on_self (set_m_uk uk) s1). intros [r yd].
    unfold g, on_self, with_rates. simpl. now destruct r. }
  cbv iota beta. rewrite Hg.
  exact (evalEqs_balances_commutes (m_wdot (self s)) time params th
           (perturbation (self s1)) (on_self (set_m_uk uk) s1)).
Qed.

(** C6 (amended).  With homogeneous chemistry disabled and the
    production-rate buffer [m_wdot] holding zeros (one per species, as the
    buffer is sized and filled at initialization), [evalEqs] gives the
    derivatives and has the outcome it has with chemistry enabled and a
    kinetics evaluator that reports zero for every species. *)
Theorem evalEqs_chemistry_disabled_zero_buffer
    (time : R) (y : buffer) (params : params_t) (s : Frame) :
  m_chem (self s) = false ->
  m_wdot (self s) = zeros (m_nsp (self s)) ->
  let s0 := on_self (with_rates (zeros (m_nsp (self s)))) s in
  ydot (fst (evalEqs time y params s)) = ydot (fst (evalEqs time y params s0))
  /\ snd (evalEqs time y params s) = snd (evalEqs time y params s0).
Proof.
  intros Hchem Hbuf s0.
  pose proof (evalEqs_chemistry_disabled_uses_buffer time y params s Hchem) as H.
  cbv zeta in H. rewrite Hbuf in H. fold s0 in H.
  rewrite H. split; reflexivity.
Qed.

Lemma evalEqs_chemistry_disabled_zero_buffer_witness :
  ydot (fst (evalEqs 0 zero_buffer None (mkFrame sample_reactor zero_buffer)))
  = ydot (fst (evalEqs 0 zero_buffer None
                 (mkFrame (with_rates (zeros 1) sample_reactor) zero_buffer)))
  /\ snd (evalEqs 0 zero_buffer None (mkFrame sample_reactor zero_buffer))
     = snd (evalEqs 0 zero_buffer None
              (mkFrame (with_rates (zeros 1) sample_reactor) zero_buffer)).
Proof.
  apply (evalEqs_chemistry_disabled_zero_buffer 0 zero_buffer None
           (mkFrame sample_reactor zero_buffer)).
  - reflexivity.
  - reflexivity.
Defined.

(** C6, as stated, fails: [stale_reactor] has homogeneous chemistry
    disabled and the rate [1] left in [m_wdot]; [evalEqs] gives its species
    the derivative [1/2], where zero production rates give [0]. *)
Lemma evalEqs_uses_stale_rates :
  let stale := evalEqs 0 zero_buffer None (mkFrame stale_reactor zero_buffer) in
  let zero := evalEqs 0 zero_buffer None
                (mkFrame (with_rates [0] stale_reactor) zero_buffer) in
  m_chem stale_reactor = false
  /\ snd stale = Ok tt /\ snd zero = Ok tt
  /\ ydot (fst stale) 3%N = 1 / 2
  /\ ydot (fst zero) 3%N = 0
  /\ ydot (fst stale) 3%N <> ydot (fst zero) 3%N.
Proof.
  vm_compute. repeat split; try lra.
Qed.

(* ================================================================= *)
(** ** [evalEqs] and its argument [y] *)


(* ================================================================= *)
(** ** The entries [evalJacEqs] writes *)

Lemma mset_other (J : matrix) (i j i' j' : N) (v : R) :
  (i', j') <> (i, j) -> mset J i j v i' j' = J i' j'.
Proof.
  intros Hne. unfold mset.
  destruct (N.eqb_spec i' i) as [-> |]; [| reflexivity].
  destruct (N.eqb_spec j' j) as [-> |]; [| reflexivity].
  now contradiction Hne.
Qed.

Lemma fold_mset_other (row : N -> N) (col : N) (val : N -> R) (i' j' : N)
      (l : list N) :
  (forall k, In k l -> (i', j') <> (row k, col)) ->
  forall J : matrix,
    fold_left (fun J k => mset J (row k) col (val k)) l J i' j' = J i' j'.
Proof.
  induction l as [| k l IH]; intros Hl J; simpl.
  - reflexivity.
  - rewrite IH by (intros k' Hk'; apply Hl; now right).
    apply mset_other. apply Hl. now left.
Qed.

Section JacobianFrame.

Variable GasConstant : R.
Variable P : JFrame -> Prop.

Lemma jthermo_keeps : keeps P jthermo.
Proof. intros s H. unfold wp, jthermo, deref. now destruct (m_thermo (jself s)). Qed.

Lemma jkinetics_keeps : keeps P jkinetics.
Proof. intros s H. unfold wp, jkinetics, deref. now destruct (m_kin (jself s)). Qed.

End JacobianFrame.

(** C8.  [evalJacEqs] leaves every entry of the Jacobian as it was, except
    the temperature diagonal entry [(start+2, start+2)] and the entries
    [(start+3+k, start+2)] of the species rows in the temperature column,
    [k < m_nsp]; this on every outcome of the call. *)
Theorem evalJacEqs_frame
    (GasConstant time : R) (y : buffer) (start : N) (s : JFrame) (i j : N) :
  let T_ind := size_add start 2 in
  let y_ind := size_add start 3 in
  (i, j) <> (T_ind, T_ind) ->
  (forall k, (k < m_nsp (jself s))%N -> (i, j) <> (size_add y_ind k, T_ind)) ->
  jac (fst (evalJacEqs GasConstant time y start s)) i j = jac s i j.
Proof.
  intros T_ind y_ind HT HY.
  set (P := fun s' : JFrame => jac s' i j = jac s i j).
  assert (K : wp (evalJacEqs GasConstant time y start)
                 (fun _ s' => P s') (fun _ s' => P s') s).
  { unfold evalJacEqs, df1dT_terms.
    apply wp_bind. apply wp_gets.
    match goal with
    | |- wp ?m _ _ _ => assert (Km : keeps P m); [| apply Km; reflexivity]
    end.
    repeat first
      [ keeps_step
      | lazymatch goal with
        | |- keeps _ jthermo => apply jthermo_keeps
        | |- keeps _ jkinetics => apply jkinetics_keeps
        end ].
    - unfold P in *. simpl. rewrite mset_other by exact HT. assumption.
    - unfold P in *. simpl.
      rewrite (fold_mset_other (fun k => size_add (size_add start 3) k)).
      + assumption.
      + intros k Hk. apply HY. apply in_iota. exact Hk. }
  unfold wp in K.
  destruct (evalJacEqs GasConstant time y start s) as [s' [[] | e]]; exact K.
Qed.

Lemma evalJacEqs_frame_witness :
  jac (fst (evalJacEqs 8314 0 sample_vector 0
              (mkJFrame closed_reactor zero_matrix []))) 2%N 3%N
  = zero_matrix 2%N 3%N.
Proof.
  apply (evalJacEqs_frame 8314 0 sample_vector 0
           (mkJFrame closed_reactor zero_matrix []) 2 3).
  - intros H. discriminate H.
  - intros k Hk H. discriminate H.
Defined.

(* ================================================================= *)
(** ** The sum over the species in [evalJacEqs] *)

(** C9 fails on the code.  For the one-species [sample_reactor], whose state
    vector holds the mass [2] at offset [start = 0] and the mass fraction [1]
    at offset [start + 3], the loop of lines 158-160 weights the species'
    term by the entry at [start + 0], the mass, and sums to [2]; weighted by
    the mass-fraction entry, as the claim has it, the sum is [1]. *)
Theorem dcvRdT_sum_reads_from_start :
  sample_vector 0%N = 2 /\ sample_vector 3%N = 1
  /\ dcvRdT_sum [1] [1] sample_vector 0 1 = 2
  /\ dcvRdT_spec [1] [1] sample_vector 0 1 = 1
  /\ dcvRdT_sum [1] [1] sample_vector 0 1 <> dcvRdT_spec [1] [1] sample_vector 0 1.
Proof.
  vm_compute. repeat split; lra.
Qed.

(** In general, species [i] is weighted by the entry [start + i] of [y]:
    the first three species get the mass, the volume and the temperature. *)
Lemma dcvRdT_sum_one_species (dCvRdT mw : list R) (y : buffer) (start : N) :
  dcvRdT_sum dCvRdT mw y start 1
  = 0 + vget dCvRdT 0 / vget mw 0 * y (size_add start 0).
Proof. reflexivity. Qed.

(* ================================================================= *)
(** ** Component names and indices *)

Lemma find_name_found (nm : string) (names : list string) :
  In nm names ->
  forall k, exists i,
    (i < List.length names)%nat
    /\ nth_error names i = Some nm
    /\ find_name nm names k = (k + N.of_nat i)%N.
Proof.
  induction names as [| x names IH]; intros Hin k; [destruct Hin |].
  simpl find_name. destruct (String.eqb_spec nm x) as [-> | Hne].
  - exists 0%nat. simpl. repeat split; [lia | lia].
  - destruct Hin as [-> | Hin]; [contradiction |].
    destruct (IH Hin (k + 1)%N) as [i [Hi [Hnth Hfind]]].
    exists (S i). simpl. repeat split; [lia | exact Hnth | lia].
Qed.

Lemma find_name_not_found (nm : string) (names : list string) :
  ~ In nm names -> forall k, find_name nm names k = npos.
Proof.
  induction names as [| x names IH]; intros Hnin k; simpl.
  - reflexivity.
  - destruct (String.eqb_spec nm x) as [-> | Hne].
    + contradiction Hnin. now left.
    + apply IH. intros Hin. apply Hnin. now right.
Qed.

(** A species name has the index of its first occurrence plus three, and
    the component of that index has the name. *)
Lemma componentIndex_species (r : Reactor) (th : ThermoPhase.t) (nm : string) :
  m_thermo r = Some th ->
  (N.of_nat (List.length (ThermoPhase.speciesNames th)) + 3 < size_max)%N ->
  In nm (ThermoPhase.speciesNames th) ->
  exists i,
    (i < List.length (ThermoPhase.speciesNames th))%nat
    /\ nth_error (ThermoPhase.speciesNames th) i = Some nm
    /\ componentIndex r nm = (N.of_nat i + 3)%N.
Proof.
  intros Hth Hsize Hin.
  destruct (find_name_found nm _ Hin 0) as [i [Hi [Hnth Hfind]]].
  exists i. split; [exact Hi | split; [exact Hnth |]].
  unfold componentIndex, speciesIndex. rewrite Hth, Hfind.
  unfold size_max in Hsize.
  assert (Hnpos : (0 + N.of_nat i)%N <> npos) by (unfold npos, size_max; lia).
  apply N.eqb_neq in Hnpos. rewrite Hnpos. simpl negb. cbv iota.
  unfold size_add, size_max. rewrite N.mod_small by lia. lia.
Qed.

(** C7.  With a property evaluator attached (of fewer than [2^64 - 3]
    species): the component of the index of a gas species name is that name;
    "mass", "volume" and "temperature" have the indices 0, 1 and 2 unless
    they name a gas species, which then has the index of the species; and a
    name that is neither a species name nor one of the three has the index
    [npos]. *)
Theorem componentIndex_componentName
    (r : Reactor) (th : ThermoPhase.t) :
  m_thermo r = Some th ->
  (N.of_nat (List.length (ThermoPhase.speciesNames th)) + 3 < size_max)%N ->
  let names := ThermoPhase.speciesNames th in
  (forall nm, In nm names -> componentName r (componentIndex r nm) = Ok nm)
  /\ (forall nm, In nm names -> (3 <= componentIndex r nm < npos)%N)
  /\ (~ In "mass"%string names -> componentIndex r "mass" = 0%N)
  /\ (~ In "volume"%string names -> componentIndex r "volume" = 1%N)
  /\ (~ In "temperature"%string names -> componentIndex r "temperature" = 2%N)
  /\ (forall nm, ~ In nm names ->
        nm <> "mass"%string -> nm <> "volume"%string -> nm <> "temperature"%string ->
        componentIndex r nm = npos).
Proof.
  intros Hth Hsize names.
  assert (Hmiss : forall nm, ~ In nm names -> speciesIndex r nm = npos).
  { intros nm Hnin. unfold speciesIndex. rewrite Hth.
    now apply find_name_not_found. }
  split; [| split; [| split; [| split; [| split]]]].
  - intros nm Hin.
    destruct (componentIndex_species r th nm Hth Hsize Hin) as [i [Hi [Hnth ->]]].
    unfold componentName.
    destruct (N.eqb_spec (N.of_nat i + 3) 2) as [E | _]; [lia |].
    unfold Reactor_componentName. rewrite Hth.
    destruct (N.leb_spec 3 (N.of_nat i + 3)) as [_ | E]; [| lia].
    replace (N.to_nat (N.of_nat i + 3 - 3)) with i by lia.
    rewrite nth_error_app1 by exact Hi.
    fold names. fold names in Hnth. now rewrite Hnth.
  - intros nm Hin.
    destruct (componentIndex_species r th nm Hth Hsize Hin) as [i [Hi [_ ->]]].
    unfold npos. fold names in Hi. unfold names in *. lia.
  - intros Hnin. unfold componentIndex. now rewrite (Hmiss _ Hnin).
  - intros Hnin. unfold componentIndex. now rewrite (Hmiss _ Hnin).
  - intros Hnin. unfold componentIndex. now rewrite (Hmiss _ Hnin).
  - intros nm Hnin Hm Hv Ht. unfold componentIndex. rewrite (Hmiss _ Hnin).
    rewrite N.eqb_refl. simpl negb. cbv iota.
    apply String.eqb_neq in Hm, Hv, Ht. now rewrite Hm, Hv, Ht.
Qed.

Lemma componentIndex_componentName_witness :
  componentName sample_reactor (componentIndex sample_reactor "H2") = Ok "H2"%string
  /\ componentIndex sample_reactor "mass" = 0%N
  /\ componentIndex sample_reactor "volume" = 1%N
  /\ componentIndex sample_reactor "temperature" = 2%N
  /\ componentIndex sample_reactor "not-a-species" = npos.
Proof.
  destruct (componentIndex_componentName sample_reactor (sample_thermo "IdealGas")
              eq_refl eq_refl)
    as [Hname [_ [Hmass [Hvolume [Htemperature Hnone]]]]].
  assert (Hnin : forall nm : string,
             nm <> "H2"%string -> ~ In nm (ThermoPhase.speciesNames
                                             (sample_thermo "IdealGas"))).
  { intros nm Hne [E | []]. apply Hne. symmetry. exact E. }
  split; [apply Hname; now left |].
  split; [apply Hmass, Hnin; discriminate |].
  split; [apply Hvolume, Hnin; discriminate |].
  split; [apply Htemperature, Hnin; discriminate |].
  apply Hnone; [apply Hnin |..]; discriminate.
Defined.

(** The buffer [m_wdot] does come to hold rates while homogeneous chemistry
    is disabled: [evalJacEqs] fetches them whatever the switch says. *)
Lemma evalJacEqs_leaves_rates_in_buffer :
  let r := set_m_kin (Some (constant_kinetics [1])) sample_reactor in
  let out := evalJacEqs 8314 0 sample_vector 0 (mkJFrame r zero_matrix []) in
  m_chem r = false
  /\ m_wdot r = [0]
  /\ snd out = Ok tt
  /\ m_wdot (jself (fst out)) = [1].
Proof. vm_compute. repeat split. Qed.

(* ================================================================= *)
(** ** Further properties of [evalJacEqs] *)

(** One step of a computation inside a [wp] goal, for a step that keeps the
    property [P] of the state that hypothesis [H] states; [kp] proves that
    it does, and [err] closes the case of a throw. *)
Ltac wp_keeps_step kp err :=
  cbv beta zeta;
  lazymatch goal with
  | H : ?P ?s |- wp (bind ?m _) _ _ ?s =>
      apply wp_bind;
      apply wp_mono with (Q := fun _ s' => P s') (E := fun _ s' => P s');
      [ let K := fresh "K" in
        assert (K : keeps P m) by kp;
        exact (K s H)
      | clear H; intros ? ? H
      | clear H; intros ? ? H; err H ]
  end.

Ltac keeps_jacobian :=
  repeat first
    [ keeps_step
    | lazymatch goal with
      | |- keeps _ jthermo => apply jthermo_keeps
      | |- keeps _ jkinetics => apply jkinetics_keeps
      end ].

Lemma differs_in_scratch_refl (r : Reactor) : differs_in_scratch r r.
Proof. exists (m_work r), (m_uk r), (m_wdot r). now destruct r. Qed.

(** X1.  On every outcome, [evalJacEqs] leaves the reactor as it was but
    for the scratch buffers [m_work], [m_uk] and [m_wdot]: the property
    evaluator and its state, the sensitivity perturbation, the mass, the
    volume, the cached properties and the switches are not touched. *)
Theorem evalJacEqs_reactor_frame
    (GasConstant time : R) (y : buffer) (start : N) (s : JFrame) :
  differs_in_scratch (jself s) (jself (fst (evalJacEqs GasConstant time y start s))).
Proof.
  assert (K : keeps (scratch_only s) (evalJacEqs GasConstant time y start)).
  { unfold evalJacEqs, df1dT_terms. keeps_jacobian.
    all: unfold scratch_only, differs_in_scratch in *; simpl;
      match goal with
      | H : exists _ _ _, _ = _ |- _ => destruct H as [w0 [u0 [d0 H]]]; rewrite H
      end.
    - now exists a5, u0, d0.
    - now exists w0, a7, d0.
    - now exists w0, u0, a10. }
  pose proof (K s (differs_in_scratch_refl (jself s))) as H.
  unfold wp in H.
  destruct (evalJacEqs GasConstant time y start s) as [s' [[] | e]]; exact H.
Qed.

(** X2.  When [evalJacEqs] throws, it has written nothing to the Jacobian
    and printed nothing: every query of the property and kinetics evaluators
    comes before the first write. *)
Theorem evalJacEqs_throw_writes_nothing
    (GasConstant time : R) (y : buffer) (start : N) (s s' : JFrame) (e : error) :
  evalJacEqs GasConstant time y start s = (s', Err e) ->
  jac s' = jac s /\ cout s' = cout s.
Proof.
  intros Hrun.
  assert (Hwp : wp (evalJacEqs GasConstant time y start)
                   (fun _ _ => True) (fun _ s' => nothing_written s s') s).
  { assert (H : nothing_written s s) by (split; reflexivity).
    revert H. generalize s at 2 4. intros s0 H.
    unfold evalJacEqs, df1dT_terms.
    repeat wp_keeps_step keeps_jacobian ltac:(fun H => exact H).
    apply wp_bind. apply wp_modify.
    apply wp_bind. apply wp_modify.
    apply wp_modify. exact I. }
  unfold wp in Hwp. rewrite Hrun in Hwp. exact Hwp.
Qed.

Lemma evalJacEqs_throw_writes_nothing_witness :
  let s := mkJFrame failing_reactor zero_matrix [] in
  let out := evalJacEqs 8314 0 sample_vector 0 s in
  jac (fst out) = jac s /\ cout (fst out) = cout s.
Proof.
  apply (evalJacEqs_throw_writes_nothing 8314 0 sample_vector 0
           (mkJFrame failing_reactor zero_matrix []) _
           (CanteraError "getNetProductionRates" "failed")).
  vm_compute. reflexivity.
Defined.

(** What a call of [evalJacEqs] that returns leaves in [m_wdot]. *)
Lemma evalJacEqs_rates
    (GasConstant time : R) (y : buffer) (start : N) (s s' : JFrame) :
  evalJacEqs GasConstant time y start s = (s', Ok tt) ->
  exists th kin wdot,
    m_thermo (jself s) = Some th
    /\ m_kin (jself s) = Some kin
    /\ Kinetics.getNetProductionRates kin (perturbation (jself s))
         (ThermoPhase.state th) = Ok wdot
    /\ m_wdot (jself s') = wdot
    /\ m_chem (jself s') = m_chem (jself s).
Proof.
  intros Hrun.
  assert (Hwp : wp (evalJacEqs GasConstant time y start)
                   (fun _ s' =>
                      exists th kin wdot,
                        m_thermo (jself s) = Some th
                        /\ m_kin (jself s) = Some kin
                        /\ Kinetics.getNetProductionRates kin
                             (perturbation (jself s)) (ThermoPhase.state th) = Ok wdot
                        /\ m_wdot (jself s') = wdot
                        /\ m_chem (jself s') = m_chem (jself s))
                   (fun _ _ => True) s).
  { unfold evalJacEqs. cbv zeta.
    apply wp_bind. apply wp_gets.
    apply wp_bind. apply wp_gets.
    apply wp_bind. unfold jthermo at 1. apply wp_deref; [| intros _; exact I].
    intros th Hth.
    apply wp_bind. apply wp_lift; [intros dCvRdT _ | intros; exact I].
    apply wp_bind. apply wp_lift; [intros cv _ | intros; exact I].
    apply wp_bind. apply wp_gets.
    apply wp_bind. apply wp_lift; [intros work _ | intros; exact I].
    apply wp_bind. apply wp_modify.
    apply wp_bind. apply wp_lift; [intros uk _ | intros; exact I].
    apply wp_bind. apply wp_modify.
    apply wp_bind. unfold jkinetics at 1. apply wp_deref; [| intros _; exact I].
    intros kin Hkin. simpl in Hkin.
    apply wp_bind. apply wp_lift; [intros wdot Hwdot | intros; exact I].
    apply wp_bind. apply wp_modify.
    set (P := fun s1 : JFrame =>
                m_wdot (jself s1) = wdot /\ m_chem (jself s1) = m_chem (jself s)).
    match goal with
    | |- wp ?m _ _ ?s1 =>
        assert (K : keeps P m) by (unfold df1dT_terms; keeps_jacobian);
        assert (H1 : P s1) by (split; reflexivity);
        pose proof (K s1 H1) as H
    end.
    eapply wp_mono; [exact H | | intros; exact I].
    intros _ s1 [Hw Hc]. exists th, kin, wdot. auto. }
  unfold wp in Hwp. rewrite Hrun in Hwp. exact Hwp.
Qed.

(** X3.  A call of [evalJacEqs] that returns has fetched the net production
    rates from the kinetics evaluator, whether homogeneous chemistry is
    enabled or not (unlike [evalEqs], it does not look at [m_chem]): every
    rate the evaluator reports is in the cell of its species in [m_wdot].
    Nothing is said of cells of the buffer past the rates reported. *)
Theorem evalJacEqs_fetches_rates
    (GasConstant time : R) (y : buffer) (start : N) (s s' : JFrame) :
  evalJacEqs GasConstant time y start s = (s', Ok tt) ->
  exists th kin wdot,
    m_thermo (jself s) = Some th
    /\ m_kin (jself s) = Some kin
    /\ Kinetics.getNetProductionRates kin (perturbation (jself s))
         (ThermoPhase.state th) = Ok wdot
    /\ (forall k, (k < N.of_nat (List.length wdot))%N ->
          vget (m_wdot (jself s')) k = vget wdot k)
    /\ m_chem (jself s') = m_chem (jself s).
Proof.
  intros Hrun.
  destruct (evalJacEqs_rates _ _ _ _ _ _ Hrun)
    as [th [kin [wdot [Hth [Hkin [Hrates [Hwdot Hchem]]]]]]].
  exists th, kin, wdot. repeat split; try assumption.
  intros k _. now rewrite Hwdot.
Qed.

Lemma evalJacEqs_fetches_rates_witness :
  let r := set_m_kin (Some (constant_kinetics [1])) sample_reactor in
  let out := evalJacEqs 8314 0 sample_vector 0 (mkJFrame r zero_matrix []) in
  m_chem r = false /\
  exists th kin wdot,
    m_thermo r = Some th
    /\ m_kin r = Some kin
    /\ Kinetics.getNetProductionRates kin (perturbation r) (ThermoPhase.state th)
       = Ok wdot
    /\ (forall k, (k < N.of_nat (List.length wdot))%N ->
          vget (m_wdot (jself (fst out))) k = vget wdot k)
    /\ m_chem (jself (fst out)) = m_chem r.
Proof.
  split; [reflexivity |].
  apply (evalJacEqs_fetches_rates 8314 0 sample_vector 0
           (mkJFrame (set_m_kin (Some (constant_kinetics [1])) sample_reactor)
                     zero_matrix [])).
  vm_compute. reflexivity.
Defined.

(** X4.  With homogeneous chemistry disabled, a call of [evalJacEqs] that
    returns changes what [evalEqs] computes afterwards: on the reactor it
    leaves, [evalEqs] does what it does with chemistry enabled and a kinetics
    evaluator that reports the rates [evalJacEqs] fetched. *)
Theorem evalEqs_after_evalJacEqs
    (GasConstant tj : R) (yj : buffer) (start : N) (s s' : JFrame) :
  evalJacEqs GasConstant tj yj start s = (s', Ok tt) ->
  m_chem (jself s) = false ->
  exists th kin wdot,
    m_thermo (jself s) = Some th
    /\ m_kin (jself s) = Some kin
    /\ Kinetics.getNetProductionRates kin (perturbation (jself s))
         (ThermoPhase.state th) = Ok wdot
    /\ forall (time : R) (y : buffer) (params : params_t) (yd : buffer),
         let f := mkFrame (jself s') yd in
         evalEqs time y params (on_self (with_rates wdot) f)
         = (on_self (with_rates wdot) (fst (evalEqs time y params f)),
            snd (evalEqs time y params f)).
Proof.
  intros Hrun Hchem.
  destruct (evalJacEqs_rates _ _ _ _ _ _ Hrun)
    as [th [kin [wdot [Hth [Hkin [Hrates [Hwdot Hchem']]]]]]].
  exists th, kin, wdot. repeat split; try assumption.
  intros time y params yd f.
  pose proof (evalEqs_chemistry_disabled_uses_buffer time y params f) as H.
  simpl in H. rewrite Hwdot in H. apply H. congruence.
Qed.

Lemma evalEqs_after_evalJacEqs_witness :
  let r := set_m_kin (Some (constant_kinetics [1])) sample_reactor in
  let s' := fst (evalJacEqs 8314 0 sample_vector 0 (mkJFrame r zero_matrix [])) in
  exists th kin wdot,
    m_thermo r = Some th
    /\ m_kin r = Some kin
    /\ Kinetics.getNetProductionRates kin (perturbation r) (ThermoPhase.state th)
       = Ok wdot
    /\ forall (time : R) (y : buffer) (params : params_t) (yd : buffer),
         let f := mkFrame (jself s') yd in
         evalEqs time y params (on_self (with_rates wdot) f)
         = (on_self (with_rates wdot) (fst (evalEqs time y params f)),
            snd (evalEqs time y params f)).
Proof.
  apply (evalEqs_after_evalJacEqs 8314 0 sample_vector 0
           (mkJFrame (set_m_kin (Some (constant_kinetics [1])) sample_reactor)
                     zero_matrix [])).
  - vm_compute. reflexivity.
  - reflexivity.
Defined.

(* ================================================================= *)
(** ** Further properties of [evalEqs] *)

Lemma differs_in_evalEqs_members_refl (r : Reactor) :
  differs_in_evalEqs_members r r.
Proof.
  exists (m_thermo r), (m_uk r), (m_wdot r), (m_vdot r), (m_Q r), (perturbation r).
  now destruct r.
Qed.

(** Closes the goals that the writes of [evalEqs] to the reactor leave. *)
Ltac members_only :=
  unfold evalEqs_members_only, differs_in_evalEqs_members in *; simpl;
  match goal with
  | H : exists _ _ _ _ _ _, _ = _ |- _ =>
      destruct H as [th_ [uk_ [wdot_ [vdot_ [Q_ [p_ H]]]]]]; rewrite H
  end;
  try match goal with
      | |- context [applySensitivity ?p _] => destruct p
      | |- context [resetSensitivity ?p _] => destruct p
      end;
  lazymatch goal with
  | |- exists _ _ _ _ _ _, ?L = _ =>
      exists (m_thermo L), (m_uk L), (m_wdot L), (m_vdot L), (m_Q L), (perturbation L);
      reflexivity
  end.

Ltac keeps_evalEqs :=
  repeat first
    [ keeps_step
    | lazymatch goal with
      | |- keeps _ thermo => intros ? ?; unfold thermo; apply keeps_deref; assumption
      | |- keeps _ kinetics => intros ? ?; unfold kinetics; apply keeps_deref; assumption
      end ].

Lemma evalEqs_keeps_members (r : Reactor) time y params :
  keeps (evalEqs_members_only r) (evalEqs time y params).
Proof.
  unfold evalEqs, evalEqs_balances, evalWalls, evalSurfaces, species_terms,
    outlet_terms, inlet_terms, inlet_species_terms.
  keeps_evalEqs.
  all: members_only.
Qed.

(** X5.  On every outcome, [evalEqs] leaves the reactor as it was but for
    the members it assigns (the state of the property evaluator, [m_uk],
    [m_wdot], [m_vdot], [m_Q] and the perturbation): the cached snapshot,
    mass, volume, pressure, enthalpy and internal energy, the switches, the
    flow devices and the walls are not touched.  The property evaluator,
    whatever state it held, ends on the cached snapshot. *)
Theorem evalEqs_reactor_frame
    (time : R) (y : buffer) (params : params_t) (s : Frame) :
  let r := self s in
  let r' := self (fst (evalEqs time y params s)) in
  differs_in_evalEqs_members r r'
  /\ (forall th0, m_thermo r = Some th0 ->
        m_thermo r' = Some (ThermoPhase.restoreState (m_state r) th0)).
Proof.
  intros r r'. split.
  - pose proof (evalEqs_keeps_members r time y params s
                  (differs_in_evalEqs_members_refl r)) as H.
    unfold wp in H. subst r'.
    destruct (evalEqs time y params s) as [s' [[] | e]]; exact H.
  - intros th0 Hth.
    set (th := ThermoPhase.restoreState (m_state r) th0).
    assert (Hwp : wp (evalEqs time y params)
                     (fun _ s' => evaluator_is th s')
                     (fun _ s' => evaluator_is th s') s).
    { unfold evalEqs. cbv zeta.
      apply wp_bind. apply (wp_thermo th0); [exact Hth |].
      apply wp_bind. apply wp_gets.
      apply wp_bind. apply wp_modify.
      match goal with
      | |- wp ?m _ _ ?s1 =>
          assert (K : keeps (evaluator_is th) m);
          [| apply K; reflexivity]
      end.
      unfold evalEqs_balances, evalWalls, evalSurfaces, species_terms,
        outlet_terms, inlet_terms, inlet_species_terms.
      keeps_evalEqs.
      all: unfold evaluator_is in *; simpl;
        try match goal with
            | |- context [applySensitivity ?p _] => destruct p
            | |- context [resetSensitivity ?p _] => destruct p
            end; assumption. }
    unfold wp in Hwp. subst r'.
    destruct (evalEqs time y params s) as [s' [[] | e]]; exact Hwp.
Qed.

Lemma evalEqs_reactor_frame_witness :
  let s := mkFrame (set_m_thermo
                      (Some (ThermoPhase.with_state (mkThermoState 500 3 [1])
                               (sample_thermo "IdealGas")))
                      closed_reactor) zero_buffer in
  m_thermo (self (fst (evalEqs 0 zero_buffer None s)))
  = Some (sample_thermo "IdealGas").
Proof.
  intros s.
  apply (proj2 (evalEqs_reactor_frame 0 zero_buffer None s)
           (ThermoPhase.with_state (mkThermoState 500 3 [1]) (sample_thermo "IdealGas"))).
  reflexivity.
Defined.

Lemma nSurfaceUnknowns_cons (w : Wall.t) (ws : list Wall.t) :
  nSurfaceUnknowns (w :: ws) = (Wall.nSurfaceSpecies w + nSurfaceUnknowns ws)%N.
Proof.
  unfold nSurfaceUnknowns. simpl. rewrite length_app, Nat2N.inj_add.
  now rewrite initial_block_length.
Qed.

Lemma keeps_forM_in {S A X} (P : S -> Prop) (body : A -> X -> M S A)
      (l : list X) (acc : A) :
  (forall acc x, In x l -> keeps P (body acc x)) -> keeps P (forM l acc body).
Proof.
  intros Hbody s H.
  apply (wp_forM body (fun _ s' => P s')); [| exact H].
  intros acc0 x s0 Hin H0. now apply Hbody.
Qed.

(** A value read from the state is known when the property kept fixes it. *)
Lemma keeps_bind_gets {S A B} (P : S -> Prop) (f : S -> A) (v : A)
      (k : A -> M S B) :
  (forall s, P s -> f s = v) -> keeps P (k v) -> keeps P (bind (gets f) k).
Proof.
  intros Hf Hk s H. apply wp_bind. apply wp_gets. rewrite (Hf s H).
  apply Hk. exact H.
Qed.

Section YdotFrame.

Variables (s : Frame) (j : N).

(** The loop of [evalSurfaces] writes the blocks of the walls, from [loc]
    on. *)
Lemma surfaces_loop_keeps_entry (time : R) (walls : list Wall.t) :
  forall (loc : N) (mdot_surf : R) (s0 : Frame),
    (loc + nSurfaceUnknowns walls <= j)%N ->
    ydot_entry_kept s j s0 ->
    wp (forM walls (loc, mdot_surf) (fun acc w =>
          bind (lift (Wall.evalSurface w time)) (fun sr =>
          bind (modify (on_ydot (fun yd =>
                  store_list yd (fst acc)
                    (map (vget (Wall.sr_surface sr))
                         (iota (Wall.nSurfaceSpecies w))))))
               (fun _ => ret ((fst acc + Wall.nSurfaceSpecies w)%N,
                              snd acc + Wall.sr_mass_flux sr)))))
       (fun _ s' => ydot_entry_kept s j s')
       (fun _ s' => ydot_entry_kept s j s') s0.
Proof.
  induction walls as [| w ws IH]; intros loc mdot_surf s0 Hj H0.
  - exact H0.
  - rewrite nSurfaceUnknowns_cons in Hj. simpl forM.
    apply wp_bind. apply wp_bind.
    apply wp_lift; [intros sr _ | intros e _; exact H0].
    apply wp_bind. apply wp_modify. apply wp_ret.
    apply IH; [simpl; lia |].
    destruct H0 as [Hy [Hn Hw]]. repeat split; try assumption.
    simpl. rewrite store_list_outside; [exact Hy |].
    right. rewrite length_map, iota_length. simpl. lia.
Qed.

Lemma evalSurfaces_keeps_entry (time : R) (off : N) :
  (off + nSurfaceUnknowns (m_wall (self s)) <= j)%N ->
  keeps (ydot_entry_kept s j) (evalSurfaces time off).
Proof.
  intros Hj s0 H0. unfold evalSurfaces.
  apply wp_bind. apply wp_gets.
  apply wp_bind.
  eapply wp_mono; [apply surfaces_loop_keeps_entry | | auto].
  - destruct H0 as [_ [_ Hw]]. rewrite Hw. exact Hj.
  - exact H0.
  - intros acc s1 H1. exact H1.
Qed.

Hypothesis beyond : (m_nsp (self s) + 3 + nSurfaceUnknowns (m_wall (self s)) <= j)%N.

Lemma evalEqs_keeps_entry (time : R) (y : buffer) (params : params_t) :
  keeps (ydot_entry_kept s j) (evalEqs time y params).
Proof.
  unfold evalEqs, evalEqs_balances, evalWalls, species_terms,
    outlet_terms, inlet_terms, inlet_species_terms.
  repeat first
    [ lazymatch goal with
      | |- keeps _ (bind (gets (fun s0 => m_nsp (self s0))) _) =>
          apply keeps_bind_gets with (v := m_nsp (self s));
          [intros ? [_ [? _]]; assumption |]
      | |- keeps _ (forM (iota _) _ _) =>
          apply keeps_forM_in; intros ? ? ?
      | |- keeps _ (evalSurfaces _ _) =>
          apply evalSurfaces_keeps_entry; exact beyond
      | |- keeps _ thermo => intros ? ?; unfold thermo; apply keeps_deref; assumption
      | |- keeps _ kinetics => intros ? ?; unfold kinetics; apply keeps_deref; assumption
      end
    | keeps_step ].
  all: repeat match goal with
              | H : In _ (iota _) |- _ => apply in_iota in H
              end.
  all: match goal with
       | H : ydot_entry_kept _ _ _ |- _ => destruct H as [Hy [Hn Hw]]
       end.
  all: unfold ydot_entry_kept; simpl.
  all: try match goal with
           | |- context [applySensitivity ?p _] => destruct p
           | |- context [resetSensitivity ?p _] => destruct p
           end.
  all: repeat split; try assumption.
  all: rewrite ?store_other by lia; assumption.
Qed.

End YdotFrame.

(** X6.  [evalEqs] writes within the state vector only: on every outcome,
    the entries of [ydot] from offset [3 + K + S] on are as they were, [K]
    being the species count [m_nsp] and [S] the number of surface-species
    unknowns of the walls. *)
Theorem evalEqs_writes_within_state_vector
    (time : R) (y : buffer) (params : params_t) (s : Frame) (j : N) :
  (m_nsp (self s) + 3 + nSurfaceUnknowns (m_wall (self s)) <= j)%N ->
  ydot (fst (evalEqs time y params s)) j = ydot s j.
Proof.
  intros Hj.
  assert (H0 : ydot_entry_kept s j s) by (repeat split).
  pose proof (evalEqs_keeps_entry s j Hj time y params s H0) as H.
  unfold wp in H.
  destruct (evalEqs time y params s) as [s' [[] | e]]; apply H.
Qed.

Lemma evalEqs_writes_within_state_vector_witness :
  ydot (fst (evalEqs 0 zero_buffer None (mkFrame closed_reactor zero_buffer))) 4%N
  = zero_buffer 4%N.
Proof.
  apply (evalEqs_writes_within_state_vector 0 zero_buffer None
           (mkFrame closed_reactor zero_buffer) 4).
  vm_compute. discriminate.
Defined.

(** A call of [evalEqs] that returns has run the balances, from a state
    whose reactor differs from the initial one in the members [evalEqs]
    assigns. *)
Lemma evalEqs_returns_through_balances
    (time : R) (y : buffer) (params : params_t) (s s' : Frame) :
  evalEqs time y params s = (s', Ok tt) ->
  exists th p sb,
    evalEqs_balances time params th p sb = (s', Ok tt)
    /\ differs_in_evalEqs_members (self s) (self sb).
Proof.
  intros Hrun. rewrite evalEqs_head in Hrun.
  destruct (m_thermo (self s)) as [th0 |]; [| discriminate Hrun].
  cbv zeta in Hrun.
  destruct (ThermoPhase.getPartialMolarIntEnergies _ _) as [uk | e];
    [| discriminate Hrun].
  destruct (m_chem _).
  - destruct (m_kin _) as [kin |]; [| discriminate Hrun].
    destruct (Kinetics.getNetProductionRates _ _ _) as [wdot | e];
      [| discriminate Hrun].
    eexists _, _, _. split; [exact Hrun |].
    simpl. destruct params; simpl.
    all: lazymatch goal with
         | |- differs_in_evalEqs_members _ ?L =>
             exists (m_thermo L), (m_uk L), (m_wdot L), (m_vdot L), (m_Q L),
               (perturbation L); now destruct (self s)
         end.
  - eexists _, _, _. split; [exact Hrun |].
    simpl. destruct params; simpl.
    all: lazymatch goal with
         | |- differs_in_evalEqs_members _ ?L =>
             exists (m_thermo L), (m_uk L), (m_wdot L), (m_vdot L), (m_Q L),
               (perturbation L); now destruct (self s)
         end.
Qed.

Lemma differs_same_devices (r r' : Reactor) (yd : buffer) :
  differs_in_evalEqs_members r r' -> same_devices r (mkFrame r' yd).
Proof.
  intros [th [uk [wdot [vdot [Q [p ->]]]]]]. repeat split.
Qed.

Ltac keeps_balances :=
  unfold evalWalls, evalSurfaces, species_terms, outlet_terms, inlet_terms,
    inlet_species_terms;
  keeps_evalEqs.

(** What the last lines of [evalEqs] leave in [ydot[1]] and [ydot[2]]. *)
Lemma evalEqs_balances_tail
    (time : R) (params : params_t) (th : ThermoPhase.t) (p : params_t)
    (r : Reactor) (sb : Frame) :
  same_devices r sb ->
  wp (evalEqs_balances time params th p)
     (fun _ s' => ydot s' 1%N = m_vdot (self s')
                  /\ (m_energy r = false -> ydot s' 2%N = 0))
     (fun _ _ => True) sb.
Proof.
  intros H. unfold evalEqs_balances. cbv zeta.
  wp_keeps_step keeps_balances ltac:(fun _ => exact I).
  wp_keeps_step keeps_balances ltac:(fun _ => exact I).
  wp_keeps_step keeps_balances ltac:(fun _ => exact I).
  apply wp_bind. apply wp_gets.
  destruct H as [_ [_ [_ Henergy]]].
  match goal with
  | |- wp _ _ _ ?s1 =>
      assert (H : reactor_is (self s1) s1) by reflexivity;
      revert Henergy H; generalize (self s1) as r0; generalize s1
  end.
  intros s1 r0 Henergy H.
  wp_keeps_step keeps_balances ltac:(fun _ => exact I).
  wp_keeps_step keeps_balances ltac:(fun _ => exact I).
  wp_keeps_step keeps_balances ltac:(fun _ => exact I).
  apply wp_bind. apply wp_modify.
  apply wp_bind. apply wp_modify.
  apply wp_bind.
  unfold reactor_is in H.
  destruct (m_energy r0) eqn:He.
  - apply wp_bind. apply wp_lift; [intros cv _ | intros; exact I].
    apply wp_modify. apply wp_modify. simpl. rewrite H. split.
    + rewrite store_other by lia. rewrite store_same. now destruct params.
    + intros Hr. congruence.
  - apply wp_modify. apply wp_modify. simpl. rewrite H. split.
    + rewrite store_other by lia. rewrite store_same. now destruct params.
    + intros _. apply store_same.
Qed.

(** X7.  With the energy equation disabled, a call of [evalEqs] that
    returns leaves [0] in [ydot[2]], whatever the reactions and the flows. *)
Theorem evalEqs_energy_disabled
    (time : R) (y : buffer) (params : params_t) (s s' : Frame) :
  m_energy (self s) = false ->
  evalEqs time y params s = (s', Ok tt) ->
  ydot s' 2%N = 0.
Proof.
  intros Henergy Hrun.
  destruct (evalEqs_returns_through_balances _ _ _ _ _ Hrun)
    as [th [p [[rb yb] [Hbal Hmem]]]].
  pose proof (evalEqs_balances_tail time params th p (self s) (mkFrame rb yb)
                (differs_same_devices _ _ yb Hmem)) as H.
  unfold wp in H. rewrite Hbal in H. apply H. exact Henergy.
Qed.

Lemma evalEqs_energy_disabled_witness :
  ydot (fst (evalEqs 0 zero_buffer None (mkFrame sample_reactor zero_buffer))) 2%N = 0.
Proof.
  apply (evalEqs_energy_disabled 0 zero_buffer None
           (mkFrame sample_reactor zero_buffer)).
  - reflexivity.
  - vm_compute. reflexivity.
Defined.

(* ================================================================= *)
(** ** The mass balance of [evalEqs] *)

Section MassBalance.

Variable time : R.

Lemma surfaces_loop_flux (r : Reactor) (walls : list Wall.t)
      (srs : list Wall.surface_rates) :
  Forall2 (fun w sr => Wall.evalSurface w time = Ok sr) walls srs ->
  forall (loc : N) (mdot_surf : R) (s0 : Frame),
    reactor_is r s0 ->
    wp (forM walls (loc, mdot_surf) (fun acc w =>
          bind (lift (Wall.evalSurface w time)) (fun sr =>
          bind (modify (on_ydot (fun yd =>
                  store_list yd (fst acc)
                    (map (vget (Wall.sr_surface sr))
                         (iota (Wall.nSurfaceSpecies w))))))
               (fun _ => ret ((fst acc + Wall.nSurfaceSpecies w)%N,
                              snd acc + Wall.sr_mass_flux sr)))))
       (fun acc s' => snd acc = mdot_surf + Rsum (map Wall.sr_mass_flux srs)
                      /\ reactor_is r s')
       (fun _ _ => True) s0.
Proof.
  induction 1 as [| w sr walls srs Hw _ IH]; intros loc mdot_surf s0 H0.
  - apply wp_ret. unfold Rsum. simpl. split; [lra | exact H0].
  - simpl forM. apply wp_bind. apply wp_bind.
    apply (wp_lift_ok _ sr); [exact Hw |].
    apply wp_bind. apply wp_modify. apply wp_ret.
    eapply wp_mono; [apply IH; exact H0 | | auto].
    intros acc s1 [Hacc H1]. split; [| exact H1].
    rewrite Hacc. unfold Rsum. simpl. lra.
Qed.

Lemma outlets_loop_mass (r : Reactor) (outlets : list FlowDevice.t) (outs : list R) :
  Forall2 (fun o m => FlowDevice.massFlowRate o time = Ok m) outlets outs ->
  forall (acc : R * R) (s0 : Frame),
    reactor_is r s0 ->
    wp (forM outlets acc (outlet_terms time))
       (fun acc' s' => fst acc' = fst acc - Rsum outs /\ reactor_is r s')
       (fun _ _ => True) s0.
Proof.
  induction 1 as [| o m outlets outs Ho _ IH]; intros acc s0 H0.
  - apply wp_ret. unfold Rsum. simpl. split; [lra | exact H0].
  - simpl forM. apply wp_bind. unfold outlet_terms at 1. cbv zeta.
    apply wp_bind. apply wp_gets.
    apply wp_bind. apply (wp_lift_ok _ m); [exact Ho |].
    apply wp_ret.
    eapply wp_mono; [apply IH; exact H0 | | auto].
    intros acc' s1 [Hacc H1]. split; [| exact H1].
    rewrite Hacc. unfold Rsum. simpl. lra.
Qed.

Lemma inlets_loop_mass (r : Reactor) (mw Y : list R)
      (inlets : list FlowDevice.t) (ins : list R) :
  Forall2 (fun i m => FlowDevice.massFlowRate i time = Ok m) inlets ins ->
  forall (acc : R * R) (s0 : Frame),
    reactor_is r s0 ->
    wp (forM inlets acc (inlet_terms time mw Y))
       (fun acc' s' => fst acc' = fst acc + Rsum ins /\ reactor_is r s')
       (fun _ _ => True) s0.
Proof.
  induction 1 as [| i m inlets ins Hi _ IH]; intros acc s0 H0.
  - apply wp_ret. unfold Rsum. simpl. split; [lra | exact H0].
  - simpl forM. apply wp_bind. unfold inlet_terms at 1. cbv zeta.
    apply wp_bind. apply (wp_lift_ok _ m); [exact Hi |].
    apply wp_bind. apply wp_lift; [intros h_in _ | intros; exact I].
    wp_keeps_step ltac:(unfold inlet_species_terms; keeps_evalEqs)
                  ltac:(fun _ => exact I).
    wp_keeps_step ltac:(unfold inlet_species_terms; keeps_evalEqs)
                  ltac:(fun _ => exact I).
    apply wp_ret.
    eapply wp_mono; [apply IH; exact H0 | | auto].
    intros acc' s1 [Hacc H1]. split; [| exact H1].
    rewrite Hacc. unfold Rsum. simpl. lra.
Qed.

Lemma evalEqs_balances_mass
    (params : params_t) (th : ThermoPhase.t) (p : params_t)
    (r : Reactor) (sb : Frame)
    (srs : list Wall.surface_rates) (outs ins : list R) :
  same_devices r sb ->
  Forall2 (fun w sr => Wall.evalSurface w time = Ok sr) (m_wall r) srs ->
  Forall2 (fun o m => FlowDevice.massFlowRate o time = Ok m) (m_outlet r) outs ->
  Forall2 (fun i m => FlowDevice.massFlowRate i time = Ok m) (m_inlet r) ins ->
  wp (evalEqs_balances time params th p)
     (fun _ s' => ydot s' 0%N
                  = Rsum (map Wall.sr_mass_flux srs) - Rsum outs + Rsum ins)
     (fun _ _ => True) sb.
Proof.
  intros H Hwalls Houts Hins. unfold evalEqs_balances. cbv zeta.
  wp_keeps_step keeps_balances ltac:(fun _ => exact I).
  wp_keeps_step keeps_balances ltac:(fun _ => exact I).
  destruct H as [Hw [Ho [Hi _]]].
  apply wp_bind. unfold evalSurfaces at 1.
  apply wp_bind. apply wp_gets. rewrite Hw.
  apply wp_bind.
  match goal with
  | |- wp _ _ _ ?s1 =>
      eapply wp_mono;
      [ apply (surfaces_loop_flux (self s1) _ _ Hwalls); reflexivity | | auto ]
  end.
  intros acc s2 [Hflux H2]. apply wp_ret.
  apply wp_bind. apply wp_gets.
  unfold reactor_is in H2. rewrite H2, Ho, Hi.
  assert (H : reactor_is (self s2) s2) by reflexivity.
  rewrite H2 in H.
  wp_keeps_step keeps_balances ltac:(fun _ => exact I).
  apply wp_bind.
  eapply wp_mono; [eapply (outlets_loop_mass _ _ _ Houts); exact H | | auto].
  clear H. intros acc1 s3 [Hacc1 H].
  apply wp_bind.
  eapply wp_mono; [eapply (inlets_loop_mass _ _ _ _ _ Hins); exact H | | auto].
  clear H. intros acc2 s4 [Hacc2 H].
  apply wp_bind. apply wp_modify.
  apply wp_bind. apply wp_modify.
  apply wp_bind.
  assert (Hfinal : forall v u s5,
             ydot s5 = store (store (ydot s4) 0 (fst acc2)) 1 u ->
             wp (modify (on_self (resetSensitivity params)))
                (fun _ s' => ydot s' 0%N
                   = Rsum (map Wall.sr_mass_flux srs) - Rsum outs + Rsum ins)
                (fun _ _ => True)
                (on_ydot (fun yd => store yd 2 v) s5)).
  { intros v u s5 Hy. apply wp_modify. simpl. rewrite Hy.
    rewrite !store_other by lia. rewrite store_same.
    rewrite Hacc2, Hacc1. simpl. rewrite Hflux. lra. }
  destruct (m_energy _).
  - apply wp_bind. apply wp_lift; [intros cv _ | intros; exact I].
    apply wp_modify. eapply Hfinal. reflexivity.
  - apply wp_modify. eapply Hfinal. reflexivity.
Qed.

End MassBalance.

(** X8.  The mass balance: when the walls report the surface rates [srs]
    and the outlets and the inlets the mass flow rates [outs] and [ins] at
    [time], a call of [evalEqs] that returns leaves in [ydot[0]] the net mass
    flux from the surfaces, minus the flow through the outlets, plus the
    flow through the inlets; and it leaves in [ydot[1]] the rate of volume
    change [m_vdot] that the reactor holds after the call. *)
Theorem evalEqs_mass_balance
    (time : R) (y : buffer) (params : params_t) (s s' : Frame)
    (srs : list Wall.surface_rates) (outs ins : list R) :
  Forall2 (fun w sr => Wall.evalSurface w time = Ok sr) (m_wall (self s)) srs ->
  Forall2 (fun o m => FlowDevice.massFlowRate o time = Ok m)
          (m_outlet (self s)) outs ->
  Forall2 (fun i m => FlowDevice.massFlowRate i time = Ok m)
          (m_inlet (self s)) ins ->
  evalEqs time y params s = (s', Ok tt) ->
  ydot s' 0%N = Rsum (map Wall.sr_mass_flux srs) - Rsum outs + Rsum ins
  /\ ydot s' 1%N = m_vdot (self s').
Proof.
  intros Hwalls Houts Hins Hrun.
  destruct (evalEqs_returns_through_balances _ _ _ _ _ Hrun)
    as [th [p [[rb yb] [Hbal Hmem]]]].
  pose proof (differs_same_devices _ _ yb Hmem) as Hdev.
  split.
  - pose proof (evalEqs_balances_mass time params th p (self s) (mkFrame rb yb)
                  srs outs ins Hdev Hwalls Houts Hins) as H.
    unfold wp in H. rewrite Hbal in H. exact H.
  - pose proof (evalEqs_balances_tail time params th p (self s) (mkFrame rb yb)
                  Hdev) as H.
    unfold wp in H. rewrite Hbal in H. apply H.
Qed.

Lemma evalEqs_mass_balance_witness :
  let out := evalEqs 0 zero_buffer None (mkFrame balanced_reactor zero_buffer) in
  ydot (fst out) 0%N = Rsum (map Wall.sr_mass_flux []) - Rsum [5] + Rsum [5]
  /\ ydot (fst out) 1%N = m_vdot (self (fst out)).
Proof.
  apply (evalEqs_mass_balance 0 zero_buffer None
           (mkFrame balanced_reactor zero_buffer) _ [] [5] [5]).
  - constructor.
  - constructor; [reflexivity | constructor].
  - constructor; [reflexivity | constructor].
  - vm_compute. reflexivity.
Defined.

(* ================================================================= *)
(** ** Further properties of [updateState] and [getState] *)

(** The reactor [updateState] leaves when it returns. *)
Lemma updateState_returns (y : buffer) (r r' : Reactor) (th : ThermoPhase.t) :
  m_thermo r = Some th ->
  updateState y r = (r', Ok tt) ->
  let th' := ThermoPhase.setState_TR (y 2%N) (y 0%N / y 1%N)
               (ThermoPhase.setMassFractions_NoNorm y 3 th) in
  exists h P u,
    r' = set_m_state (ThermoPhase.state th')
           (set_m_intEnergy u (set_m_pressure P (set_m_enthalpy h
              (set_m_wall (updateSurfaceState (m_wall r) y (m_nsp r + 3))
                 (set_m_thermo (Some th')
                    (set_m_vol (y 1%N) (set_m_mass (y 0%N) r))))))).
Proof.
  intros Hth. unfold updateState, bind, modify, gets, lift, deref, ret.
  simpl. rewrite Hth. simpl.
  repeat match goal with
         | |- context [match ?x with Ok _ => _ | Err _ => _ end] =>
             destruct x; simpl
         end.
  all: intros Hrun; try discriminate Hrun.
  injection Hrun as <-. eexists _, _, _. reflexivity.
Qed.

(** X9.  The round trip from a state vector: after an [updateState] that
    returns, on a vector of nonzero volume, [getState] writes back the mass,
    the volume, the temperature and the mass fractions of that vector (the
    species count [m_nsp] being that of the property evaluator). *)
Theorem updateState_getState_round_trip
    (y y0 : buffer) (r r1 : Reactor) (th : ThermoPhase.t) :
  m_thermo r = Some th ->
  m_nsp r = ThermoPhase.nSpecies th ->
  y 1%N <> 0 ->
  updateState y r = (r1, Ok tt) ->
  let y' := snd (fst (getState y0 r1)) in
  snd (getState y0 r1) = Ok tt
  /\ y' 0%N = y 0%N
  /\ y' 1%N = y 1%N
  /\ y' 2%N = y 2%N
  /\ load_list y' 3 (m_nsp r) = load_list y 3 (m_nsp r).
Proof.
  intros Hth Hnsp Hvol Hrun y'.
  destruct (updateState_returns y r r1 th Hth Hrun) as [h [P [u Hr1]]].
  set (th' := ThermoPhase.setState_TR (y 2%N) (y 0%N / y 1%N)
                (ThermoPhase.setMassFractions_NoNorm y 3 th)) in *.
  assert (Hth1 : m_thermo r1 = Some th') by (rewrite Hr1; reflexivity).
  destruct (getState_attached y0 r1 th' Hth1)
    as [_ [Hok [H0 [H1 [H2 Hblocks]]]]].
  fold y' in H0, H1, H2, Hblocks.
  assert (Hstate : ThermoPhase.restoreState (m_state r1) th' = th').
  { rewrite Hr1. simpl. unfold ThermoPhase.restoreState. reflexivity. }
  rewrite Hstate in *.
  assert (Hvol1 : m_vol r1 = y 1%N) by (rewrite Hr1; reflexivity).
  assert (Hnsp1 : m_nsp r1 = m_nsp r) by (rewrite Hr1; reflexivity).
  assert (HK : m_nsp r1 = ThermoPhase.nSpecies th').
  { rewrite Hnsp1, Hnsp. unfold ThermoPhase.nSpecies at 2. subst th'.
    change (ThermoPhase.massFractions
              (ThermoPhase.setState_TR (y 2%N) (y 0%N / y 1%N)
                 (ThermoPhase.setMassFractions_NoNorm y 3 th)))
      with (load_list y 3 (ThermoPhase.nSpecies th)).
    rewrite load_list_length. lia. }
  destruct (Hblocks HK) as [HY _].
  split; [exact Hok |].
  split; [rewrite H0, Hvol1; subst th'; unfold ThermoPhase.density; simpl; now field |].
  split; [rewrite H1; exact Hvol1 |].
  split; [rewrite H2; reflexivity |].
  rewrite <- Hnsp1, HY. rewrite Hnsp1, Hnsp. reflexivity.
Qed.

Lemma updateState_getState_round_trip_witness :
  let r1 := fst (updateState other_vector sample_reactor) in
  let y' := snd (fst (getState zero_buffer r1)) in
  snd (getState zero_buffer r1) = Ok tt
  /\ y' 0%N = other_vector 0%N
  /\ y' 1%N = other_vector 1%N
  /\ y' 2%N = other_vector 2%N
  /\ load_list y' 3 (m_nsp sample_reactor)
     = load_list other_vector 3 (m_nsp sample_reactor).
Proof.
  apply (updateState_getState_round_trip other_vector zero_buffer sample_reactor
           _ (sample_thermo "IdealGas")).
  - reflexivity.
  - reflexivity.
  - vm_compute. lra.
  - vm_compute. reflexivity.
Defined.

(** X10.  When a property query makes [updateState] throw, the snapshot
    [m_state] is the old one, while the mass, the volume and the state of
    the property evaluator are already the new ones: the snapshot is saved
    last (line 74), after the queries. *)
Theorem updateState_throw_keeps_snapshot
    (y : buffer) (r r' : Reactor) (th : ThermoPhase.t) (e : error) :
  m_thermo r = Some th ->
  updateState y r = (r', Err e) ->
  m_state r' = m_state r
  /\ m_mass r' = y 0%N
  /\ m_vol r' = y 1%N
  /\ m_thermo r'
     = Some (ThermoPhase.setState_TR (y 2%N) (y 0%N / y 1%N)
               (ThermoPhase.setMassFractions_NoNorm y 3 th)).
Proof.
  intros Hth. unfold updateState, bind, modify, gets, lift, deref, ret.
  simpl. rewrite Hth. simpl.
  repeat match goal with
         | |- context [match ?x with Ok _ => _ | Err _ => _ end] =>
             destruct x; simpl
         end.
  all: intros Hrun; try discriminate Hrun.
  all: injection Hrun as <- _; repeat split.
Qed.

Lemma updateState_throw_keeps_snapshot_witness :
  let r := set_m_thermo (Some failing_thermo) sample_reactor in
  let r' := fst (updateState other_vector r) in
  m_state r' = m_state r
  /\ m_mass r' = other_vector 0%N
  /\ m_vol r' = other_vector 1%N
  /\ m_thermo r'
     = Some (ThermoPhase.setState_TR (other_vector 2%N)
               (other_vector 0%N / other_vector 1%N)
               (ThermoPhase.setMassFractions_NoNorm other_vector 3 failing_thermo)).
Proof.
  apply (updateState_throw_keeps_snapshot other_vector
           (set_m_thermo (Some failing_thermo) sample_reactor) _ failing_thermo
           (CanteraError "pressure" "failed")).
  - reflexivity.
  - vm_compute. reflexivity.
Defined.

(* ================================================================= *)
(** ** From a component index to its name and back *)

Lemma find_name_nth (names : list string) :
  NoDup names ->
  forall (i : nat) (nm : string) (k : N),
    nth_error names i = Some nm ->
    find_name nm names k = (k + N.of_nat i)%N.
Proof.
  induction 1 as [| x names Hx _ IH]; intros i nm k Hnth.
  - destruct i; discriminate Hnth.
  - destruct i as [| i]; simpl in Hnth.
    + injection Hnth as ->. simpl. rewrite String.eqb_refl. lia.
    + simpl. destruct (String.eqb_spec nm x) as [-> | _].
      * contradiction Hx. eapply nth_error_In. exact Hnth.
      * rewrite (IH i nm (k + 1)%N Hnth). lia.
Qed.

(** X11.  With a property evaluator attached whose species names are
    pairwise distinct (and fewer than [2^64 - 3]), every index [k] of a gas
    species, [3 <= k < 3 + K], has a component name, and the index of that
    name is [k]. *)
Theorem componentName_componentIndex
    (r : Reactor) (th : ThermoPhase.t) (k : N) :
  m_thermo r = Some th ->
  NoDup (ThermoPhase.speciesNames th) ->
  (N.of_nat (List.length (ThermoPhase.speciesNames th)) + 3 < size_max)%N ->
  (3 <= k < N.of_nat (List.length (ThermoPhase.speciesNames th)) + 3)%N ->
  exists nm,
    componentName r k = Ok nm
    /\ nth_error (ThermoPhase.speciesNames th) (N.to_nat (k - 3)) = Some nm
    /\ componentIndex r nm = k.
Proof.
  intros Hth Hnodup Hsize Hk.
  destruct (nth_error (ThermoPhase.speciesNames th) (N.to_nat (k - 3)))
    as [nm |] eqn:Hnth.
  2:{ apply nth_error_None in Hnth. lia. }
  exists nm. split; [| split; [reflexivity |]].
  - unfold componentName.
    destruct (N.eqb_spec k 2) as [E | _]; [lia |].
    unfold Reactor_componentName. rewrite Hth.
    destruct (N.leb_spec 3 k) as [_ | E]; [| lia].
    rewrite nth_error_app1 by (apply nth_error_Some; congruence).
    now rewrite Hnth.
  - unfold componentIndex, speciesIndex. rewrite Hth.
    rewrite (find_name_nth _ Hnodup _ _ 0 Hnth).
    unfold size_max in Hsize.
    assert (Hnpos : (0 + N.of_nat (N.to_nat (k - 3)))%N <> npos)
      by (unfold npos, size_max; lia).
    apply N.eqb_neq in Hnpos. rewrite Hnpos. simpl negb. cbv iota.
    unfold size_add, size_max. rewrite N.mod_small by lia. lia.
Qed.

Lemma componentName_componentIndex_witness :
  exists nm,
    componentName sample_reactor 3 = Ok nm
    /\ nth_error (ThermoPhase.speciesNames (sample_thermo "IdealGas"))
                 (N.to_nat (3 - 3)) = Some nm
    /\ componentIndex sample_reactor nm = 3%N.
Proof.
  apply (componentName_componentIndex sample_reactor (sample_thermo "IdealGas") 3).
  - reflexivity.
  - constructor; [intros [] | constructor].
  - reflexivity.
  - simpl. lia.
Defined.

(* ================================================================= *)
(** ** Initialization *)

Lemma resize_length (n : N) (v : R) (l : list R) :
  List.length (resize n v l) = N.to_nat n.
Proof.
  unfold resize. rewrite length_app, length_firstn, repeat_length. lia.
Qed.

Lemma resize_nth_kept (n : N) (v : R) (l : list R) (i : nat) :
  (i < N.to_nat n)%nat -> (i < List.length l)%nat ->
  nth i (resize n v l) 0 = nth i l 0.
Proof.
  intros Hn Hl. unfold resize.
  rewrite app_nth1 by (rewrite length_firstn; lia).
  rewrite <- (firstn_skipn (N.to_nat n) l) at 2.
  rewrite app_nth1 by (rewrite length_firstn; lia). reflexivity.
Qed.

Lemma resize_nth_filled (n : N) (v : R) (l : list R) (i : nat) :
  (List.length l <= i < N.to_nat n)%nat ->
  nth i (resize n v l) 0 = v.
Proof.
  intros Hi. unfold resize.
  rewrite app_nth2 by (rewrite length_firstn; lia).
  rewrite nth_repeat_lt; [reflexivity |].
  rewrite length_firstn. lia.
Qed.

(** X12.  Whatever the initialization of the base class does, an
    [initialize] that returns leaves the buffer [m_uk] with exactly [m_nsp]
    entries: the entries it had are kept, in place, and the new ones are
    zero.  When the base class throws, [initialize] throws the same error
    and does nothing more. *)
Theorem initialize_sizes_m_uk
    (Reactor_initialize : R -> M Reactor unit) (t0 : R) (r : Reactor) :
  let r1 := fst (Reactor_initialize t0 r) in
  let r' := fst (initialize Reactor_initialize t0 r) in
  (forall e, snd (Reactor_initialize t0 r) = Err e ->
     initialize Reactor_initialize t0 r = (r1, Err e))
  /\ (snd (Reactor_initialize t0 r) = Ok tt ->
      snd (initialize Reactor_initialize t0 r) = Ok tt
      /\ r' = set_m_uk (m_uk r') r1
      /\ List.length (m_uk r') = N.to_nat (m_nsp r')
      /\ (forall i, (i < N.to_nat (m_nsp r'))%nat ->
            nth i (m_uk r') 0
            = if (i <? List.length (m_uk r1))%nat then nth i (m_uk r1) 0 else 0)).
Proof.
  intros r1 r'. subst r1 r'. unfold initialize, bind, gets, modify.
  destruct (Reactor_initialize t0 r) as [r1 [[] | e0]]; simpl.
  - split; [intros e He; discriminate He |].
    intros _. split; [reflexivity |]. split; [reflexivity |].
    split; [apply resize_length |].
    intros i Hi. destruct (Nat.ltb_spec i (List.length (m_uk r1))) as [Hl | Hl].
    + now apply resize_nth_kept.
    + apply resize_nth_filled. lia.
  - split; [intros e He; injection He as <-; reflexivity |].
    intros He. discriminate He.
Qed.

Lemma initialize_sizes_m_uk_witness :
  let base := fun _ : R => modify (set_m_uk [7; 8]) in
  let r' := fst (initialize base 0 sample_reactor) in
  snd (initialize base 0 sample_reactor) = Ok tt
  /\ r' = set_m_uk (m_uk r') (fst (base 0 sample_reactor))
  /\ List.length (m_uk r') = N.to_nat (m_nsp r')
  /\ (forall i, (i < N.to_nat (m_nsp r'))%nat ->
        nth i (m_uk r') 0
        = if (i <? List.length (m_uk (fst (base 0%R sample_reactor))))%nat
          then nth i (m_uk (fst (base 0 sample_reactor))) 0 else 0).
Proof.
  intros base r'.
  apply (proj2 (initialize_sizes_m_uk base 0 sample_reactor)).
  reflexivity.
Defined.

(* ================================================================= *)
(** ** The species balance of [evalEqs] *)

Lemma evalEqs_balances_species
    (time : R) (params : params_t) (th : ThermoPhase.t) (p : params_t)
    (r : Reactor) (sb : Frame) (srs : list Wall.surface_rates) :
  same_species_inputs r sb ->
  m_inlet r = [] ->
  Forall2 (fun w sr => Wall.evalSurface w time = Ok sr) (m_wall r) srs ->
  wp (evalEqs_balances time params th p)
     (fun _ s' =>
        forall n, (n < m_nsp r)%N ->
          ydot s' (n + 3)%N
          = species_rate r (ThermoPhase.molecularWeights th)
              (ThermoPhase.massFractions th)
              (Rsum (map Wall.sr_mass_flux srs)) n)
     (fun _ _ => True) sb.
Proof.
  intros H Hin Hwalls. unfold evalEqs_balances. cbv zeta.
  wp_keeps_step keeps_balances ltac:(fun _ => exact I).
  apply wp_bind. apply wp_gets.
  destruct H as [Hwd [Hsd [Hv [Hm [Hn [Hw Hi]]]]]].
  apply wp_bind. unfold evalSurfaces at 1.
  apply wp_bind. apply wp_gets. rewrite Hw.
  apply wp_bind.
  match goal with
  | |- wp _ _ _ ?s1 =>
      eapply wp_mono;
      [ apply (surfaces_loop_flux time (self s1) _ _ Hwalls); reflexivity | | auto ]
  end.
  intros acc s2 [Hflux H2]. apply wp_ret.
  apply wp_bind. apply wp_gets.
  unfold reactor_is in H2.
  apply wp_bind.
  match goal with
  | |- wp (forM ?l ?a (species_terms ?mw ?Y ?md)) _ _ ?s1 =>
      destruct (species_loop_run mw Y md l a s1) as [mcv [yd [Hrun [Hvis _]]]]
  end.
  eapply wp_run; [exact Hrun |].
  assert (H : species_entries_are (self s2) yd (mkFrame (self s2) yd))
    by (split; reflexivity).
  revert H. generalize (mkFrame (self s2) yd). intros s3 H.
  rewrite H2, Hi, Hin. simpl forM.
  wp_keeps_step keeps_balances ltac:(fun _ => exact I).
  apply wp_bind. apply wp_ret.
  apply wp_bind. apply wp_modify.
  apply wp_bind. apply wp_modify.
  apply wp_bind.
  assert (Hfinal : forall (yd1 : buffer) n,
             (n < m_nsp r)%N ->
             yd1 (3 + n)%N = yd (3 + n)%N ->
             yd1 (n + 3)%N
             = species_rate r (ThermoPhase.molecularWeights th)
                 (ThermoPhase.massFractions th)
                 (Rsum (map Wall.sr_mass_flux srs)) n).
  { intros yd1 n Hlt Hyd1. rewrite N.add_comm, Hyd1.
    rewrite Hvis by (apply in_iota; rewrite Hn; exact Hlt).
    unfold species_rate. rewrite H2, Hwd, Hsd, Hv, Hm, Hflux.
    replace (0 + Rsum (map Wall.sr_mass_flux srs))
      with (Rsum (map Wall.sr_mass_flux srs)) by lra.
    reflexivity. }
  destruct H as [_ Hsp].
  destruct (m_energy _).
  - apply wp_bind. apply wp_lift; [intros cv _ | intros; exact I].
    apply wp_modify. apply wp_modify. simpl. intros n Hlt.
    apply Hfinal; [exact Hlt |]. rewrite !store_other by lia.
    apply Hsp. rewrite H2, Hn. exact Hlt.
  - apply wp_modify. apply wp_modify. simpl. intros n Hlt.
    apply Hfinal; [exact Hlt |]. rewrite !store_other by lia.
    apply Hsp. rewrite H2, Hn. exact Hlt.
Qed.

(** X13.  The species balance without inlets: when the walls report the
    surface rates [srs] at [time], a call of [evalEqs] that returns leaves
    in [ydot[n+3]], for every gas species [n < m_nsp], the production of the
    species, homogeneous (the rates [evalEqs] works with, times the volume)
    plus heterogeneous, times its molecular weight over the mass, minus its
    mass fraction in the cached state times the net surface mass flux over
    the mass. *)
Theorem evalEqs_species_balance
    (time : R) (y : buffer) (params : params_t) (s s' : Frame)
    (th0 : ThermoPhase.t) (wdot : list R) (srs : list Wall.surface_rates) :
  let r := self s in
  let p := perturbation (applySensitivity params r) in
  m_thermo r = Some th0 ->
  m_inlet r = [] ->
  Forall2 (fun w sr => Wall.evalSurface w time = Ok sr) (m_wall r) srs ->
  net_production_rates r p (m_state r) = Ok wdot ->
  evalEqs time y params s = (s', Ok tt) ->
  forall n, (n < m_nsp r)%N ->
    ydot s' (n + 3)%N
    = (vget wdot n * m_vol r + vget (m_sdot r) n)
      * vget (ThermoPhase.molecularWeights th0) n / m_mass r
      - vget (ts_Y (m_state r)) n * Rsum (map Wall.sr_mass_flux srs) / m_mass r.
Proof.
  intros r p Hth Hin Hwalls Hw Hrun n Hn.
  rewrite evalEqs_head in Hrun. fold r in Hrun. rewrite Hth in Hrun.
  cbv zeta in Hrun. unfold net_production_rates in Hw.
  assert (Hgo : forall sb,
             same_species_inputs (set_m_wdot wdot r) sb ->
             evalEqs_balances time params
               (ThermoPhase.restoreState (m_state r) th0) p sb = (s', Ok tt) ->
             ydot s' (n + 3)%N
             = (vget wdot n * m_vol r + vget (m_sdot r) n)
               * vget (ThermoPhase.molecularWeights th0) n / m_mass r
               - vget (ts_Y (m_state r)) n
                 * Rsum (map Wall.sr_mass_flux srs) / m_mass r).
  { intros sb Hsb Hbal.
    pose proof (evalEqs_balances_species time params
                  (ThermoPhase.restoreState (m_state r) th0) p
                  (set_m_wdot wdot r) sb srs Hsb Hin Hwalls) as H.
    unfold wp in H. rewrite Hbal in H. exact (H n Hn). }
  subst p r. destruct params as [v |]; simpl in Hrun, Hw, Hgo.
  all: match type of Hrun with
       | match ?x with Ok _ => _ | Err _ => _ end = _ =>
           destruct x as [uk | e]; [| discriminate Hrun]
       end.
  all: destruct (m_chem (self s)).
  all: try (destruct (m_kin (self s)) as [kin |]; [| discriminate Hw];
            rewrite Hw in Hrun).
  all: try (injection Hw as <-).
  all: refine (Hgo _ _ Hrun); repeat split.
Qed.

Lemma evalEqs_species_balance_witness :
  let out := evalEqs 0 zero_buffer None (mkFrame stale_reactor zero_buffer) in
  ydot (fst out) (0 + 3)%N
  = (vget [1] 0 * m_vol stale_reactor + vget (m_sdot stale_reactor) 0)
    * vget (ThermoPhase.molecularWeights (sample_thermo "IdealGas")) 0
    / m_mass stale_reactor
    - vget (ts_Y (m_state stale_reactor)) 0
      * Rsum (map Wall.sr_mass_flux []) / m_mass stale_reactor.
Proof.
  apply (evalEqs_species_balance 0 zero_buffer None
           (mkFrame stale_reactor zero_buffer) _ (sample_thermo "IdealGas") [1] []).
  - reflexivity.
  - reflexivity.
  - constructor.
  - reflexivity.
  - vm_compute. reflexivity.
  - reflexivity.
Defined.

(* ================================================================= *)
(** ** What [evalJacEqs] writes *)

Lemma fold_mset_at (row : N -> N) (col : N) (val : N -> R) (l : list N) :
  (forall k k', In k l -> In k' l -> row k = row k' -> k = k') ->
  forall (J : matrix) (k : N),
    In k l ->
    fold_left (fun J k => mset J (row k) col (val k)) l J (row k) col = val k.
Proof.
  induction l as [| x l IH]; intros Hinj J k Hk; [destruct Hk |].
  simpl. destruct (in_dec N.eq_dec k l) as [Hl | Hl].
  - apply IH; [| exact Hl].
    intros k1 k2 H1 H2. apply Hinj; now right.
  - destruct Hk as [-> | Hk]; [| contradiction].
    rewrite fold_mset_other.
    + unfold mset. now rewrite !N.eqb_refl.
    + intros k' Hk' E. injection E as E. apply Hl.
      rewrite (Hinj k k'); [exact Hk' | now left | now right | exact E].
Qed.

(** What a call of [evalJacEqs] that returns has written, when the indices
    [start + 3 + i] do not wrap. *)
Lemma evalJacEqs_returns
    (GasConstant time : R) (y : buffer) (start : N) (s s' : JFrame) :
  (start + 3 + m_nsp (jself s) < size_max)%N ->
  evalJacEqs GasConstant time y start s = (s', Ok tt) ->
  exists th kin wdot dwdotdT,
    m_thermo (jself s) = Some th
    /\ m_kin (jself s) = Some kin
    /\ Kinetics.getNetProductionRates kin (perturbation (jself s))
         (ThermoPhase.state th) = Ok wdot
    /\ Kinetics.getNetProductionRateTDerivatives kin (perturbation (jself s))
         (ThermoPhase.state th) = Ok dwdotdT
    /\ cout s' = cout s ++ [jac s' (start + 2)%N (start + 2)%N]
    /\ forall k, (k < m_nsp (jself s))%N ->
         jac s' (start + 3 + k)%N (start + 2)%N
         = vget (ThermoPhase.molecularWeights th) k / m_mass (jself s)
           * ((m_vol (jself s) * vget wdot k + vget (m_sdot (jself s)) k)
              / ThermoPhase.temperature th
              + vget dwdotdT k).
Proof.
  intros Hwrap Hrun.
  assert (Hwp : wp (evalJacEqs GasConstant time y start)
    (fun _ s' =>
       exists th kin wdot dwdotdT,
         m_thermo (jself s) = Some th
         /\ m_kin (jself s) = Some kin
         /\ Kinetics.getNetProductionRates kin (perturbation (jself s))
              (ThermoPhase.state th) = Ok wdot
         /\ Kinetics.getNetProductionRateTDerivatives kin (perturbation (jself s))
              (ThermoPhase.state th) = Ok dwdotdT
         /\ cout s' = cout s ++ [jac s' (start + 2)%N (start + 2)%N]
         /\ forall k, (k < m_nsp (jself s))%N ->
              jac s' (start + 3 + k)%N (start + 2)%N
              = vget (ThermoPhase.molecularWeights th) k / m_mass (jself s)
                * ((m_vol (jself s) * vget wdot k + vget (m_sdot (jself s)) k)
                   / ThermoPhase.temperature th
                   + vget dwdotdT k))
    (fun _ _ => True) s).
  { unfold evalJacEqs. cbv zeta.
    apply wp_bind. apply wp_gets.
    apply wp_bind. apply wp_gets.
    apply wp_bind. unfold jthermo at 1. apply wp_deref; [| intros _; exact I].
    intros th Hth.
    apply wp_bind. apply wp_lift; [intros dCvRdT _ | intros; exact I].
    apply wp_bind. apply wp_lift; [intros cv _ | intros; exact I].
    apply wp_bind. apply wp_gets.
    apply wp_bind. apply wp_lift; [intros work _ | intros; exact I].
    apply wp_bind. apply wp_modify.
    apply wp_bind. apply wp_lift; [intros uk _ | intros; exact I].
    apply wp_bind. apply wp_modify.
    apply wp_bind. unfold jkinetics at 1. apply wp_deref; [| intros _; exact I].
    intros kin Hkin. simpl in Hkin.
    apply wp_bind. apply wp_lift; [intros wdot Hwdot | intros; exact I].
    apply wp_bind. apply wp_modify.
    apply wp_bind. apply wp_lift; [intros dwdotdT Hdw | intros; exact I].
    match goal with
    | |- wp _ _ _ ?s1 =>
        assert (H : jframe_is s1 s1) by reflexivity
    end.
    wp_keeps_step ltac:(unfold df1dT_terms; keeps_jacobian) ltac:(fun _ => exact I).
    unfold jframe_is in H. rewrite H. clear H.
    apply wp_bind. apply wp_gets.
    apply wp_bind. apply wp_modify.
    apply wp_bind. apply wp_modify.
    apply wp_modify.
    exists th, kin, wdot, dwdotdT.
    repeat (split; [assumption |]).
    assert (HT : size_add start 2 = (start + 2)%N)
      by (unfold size_add; apply N.mod_small; lia).
    assert (HY : forall k, (k < m_nsp (jself s))%N ->
                           size_add (size_add start 3) k = (start + 3 + k)%N).
    { intros k Hk. unfold size_add. rewrite (N.mod_small (start + 3)) by lia.
      apply N.mod_small. lia. }
    simpl. rewrite HT. split.
    - f_equal. f_equal.
      rewrite (fold_mset_other (fun k => size_add (size_add start 3) k)).
      + reflexivity.
      + intros k Hk E. apply in_iota in Hk. injection E as E.
        rewrite (HY k Hk) in E. lia.
    - intros k Hk. rewrite <- (HY k Hk).
      rewrite (fold_mset_at (fun k => size_add (size_add start 3) k)).
      + reflexivity.
      + intros k1 k2 H1 H2 E. apply in_iota in H1, H2.
        rewrite (HY k1 H1), (HY k2 H2) in E. lia.
      + apply in_iota. exact Hk. }
  unfold wp in Hwp. rewrite Hrun in Hwp. exact Hwp.
Qed.

(** X14.  The species rows of the temperature column: when the indices do
    not wrap, a call of [evalJacEqs] that returns leaves in
    [J(start+3+k, start+2)], for every gas species [k < m_nsp], the molecular
    weight of the species over the mass, times the sum of its production
    (the rate the kinetics evaluator reports times the volume, plus the
    surface rate found in [m_sdot]) over the temperature and of the
    temperature derivative of its rate. *)
Theorem evalJacEqs_species_rows
    (GasConstant time : R) (y : buffer) (start : N) (s s' : JFrame)
    (th : ThermoPhase.t) (kin : Kinetics.t) (wdot dwdotdT : list R) :
  let r := jself s in
  (start + 3 + m_nsp r < size_max)%N ->
  m_thermo r = Some th ->
  m_kin r = Some kin ->
  Kinetics.getNetProductionRates kin (perturbation r) (ThermoPhase.state th)
  = Ok wdot ->
  Kinetics.getNetProductionRateTDerivatives kin (perturbation r)
    (ThermoPhase.state th) = Ok dwdotdT ->
  evalJacEqs GasConstant time y start s = (s', Ok tt) ->
  forall k, (k < m_nsp r)%N ->
    jac s' (start + 3 + k)%N (start + 2)%N
    = vget (ThermoPhase.molecularWeights th) k / m_mass r
      * ((m_vol r * vget wdot k + vget (m_sdot r) k) / ThermoPhase.temperature th
         + vget dwdotdT k).
Proof.
  intros r Hwrap Hth Hkin Hwdot Hdw Hrun.
  destruct (evalJacEqs_returns _ _ _ _ _ _ Hwrap Hrun)
    as [th1 [kin1 [wdot1 [dw1 [Hth1 [Hkin1 [Hwdot1 [Hdw1 [_ Hrows]]]]]]]]].
  fold r in Hth1, Hkin1, Hwdot1, Hdw1, Hrows.
  assert (th1 = th) by congruence. subst th1.
  assert (kin1 = kin) by congruence. subst kin1.
  assert (wdot1 = wdot) by congruence. subst wdot1.
  assert (dw1 = dwdotdT) by congruence. subst dw1.
  exact Hrows.
Qed.

Lemma evalJacEqs_species_rows_witness :
  let s := mkJFrame closed_reactor zero_matrix [] in
  let s' := fst (evalJacEqs 8314 0 sample_vector 0 s) in
  jac s' (0 + 3 + 0)%N (0 + 2)%N
  = vget (ThermoPhase.molecularWeights (sample_thermo "IdealGas")) 0
    / m_mass closed_reactor
    * ((m_vol closed_reactor * vget [0] 0 + vget (m_sdot closed_reactor) 0)
       / ThermoPhase.temperature (sample_thermo "IdealGas")
       + vget [0] 0).
Proof.
  apply (evalJacEqs_species_rows 8314 0 sample_vector 0
           (mkJFrame closed_reactor zero_matrix []) _
           (sample_thermo "IdealGas") (constant_kinetics [0]) [0] [0]).
  - reflexivity.
  - reflexivity.
  - reflexivity.
  - reflexivity.
  - reflexivity.
  - vm_compute. reflexivity.
  - reflexivity.
Defined.

(** X15.  Each call of [evalJacEqs] that returns prints one number to the
    standard output, the temperature diagonal entry [J(start+2, start+2)]
    as the call leaves it (stated for indices that do not wrap). *)
Theorem evalJacEqs_prints_diagonal
    (GasConstant time : R) (y : buffer) (start : N) (s s' : JFrame) :
  (start + 3 + m_nsp (jself s) < size_max)%N ->
  evalJacEqs GasConstant time y start s = (s', Ok tt) ->
  cout s' = cout s ++ [jac s' (start + 2)%N (start + 2)%N].
Proof.
  intros Hwrap Hrun.
  destruct (evalJacEqs_returns _ _ _ _ _ _ Hwrap Hrun)
    as [th [kin [wdot [dw [_ [_ [_ [_ [Hcout _]]]]]]]]].
  exact Hcout.
Qed.

Lemma evalJacEqs_prints_diagonal_witness :
  let s := mkJFrame closed_reactor zero_matrix [] in
  let s' := fst (evalJacEqs 8314 0 sample_vector 0 s) in
  cout s' = cout s ++ [jac s' (0 + 2)%N (0 + 2)%N].
Proof.
  apply (evalJacEqs_prints_diagonal 8314 0 sample_vector 0
           (mkJFrame closed_reactor zero_matrix [])).
  - reflexivity.
  - vm_compute. reflexivity.
Defined.
